(** * GronderfulShops: order placement, cancellation and coupons

    A shallow embedding of the four route handlers of
    [functions/routes/orders.js] and [functions/routes/coupons.js] that
    carry the stock and usage-count logic:

    - [POST /api/orders]            ([placeOrder])
    - [POST /api/orders/:id/cancel] ([cancelOrder])
    - [POST /api/coupons/validate]  ([validateCoupon])
    - [POST /api/coupons/apply]     ([applyCoupon])

    Conventions of the embedding.

    - JavaScript numbers that count things (stock, quantity, usedCount) are
      integers [Z]; numbers that hold money are exact rationals [Q], so
      [subtotal * 0.1] is the exact tenth.  Theorems on money are stated up
      to [Qeq].
    - Firestore collections keyed by document id are [gmap string _]; the
      coupon collection is queried with [limit(1)], so it is kept as an
      association list in query order.
    - A Firestore transaction is a snapshot plus a write batch: reads are
      served from the snapshot, writes are buffered and applied at commit,
      and a read issued once the batch is non-empty raises (the Admin SDK's
      rule that all reads precede all writes).  A handler that throws
      inside [runTransaction] commits nothing.
    - Requests are handled one after the other: the store's own retry on
      contention never fires and is not modelled. *)

From Stdlib Require Import ZArith QArith Qround Ascii String Lia.
From stdpp Require Import base option list strings gmap.

Local Open Scope string_scope.
Local Open Scope list_scope.

(** ** Documents *)

Module Variant.
Record t := mk {
  id : string;
  name : string;
  price : option Q;      (* absent or 0 means: use the product's price *)
  stock : Z
}.
End Variant.

Module Product.
Record t := mk {
  name : string;
  price : Q;
  isActive : bool;
  stockQuantity : Z;
  variants : option (list Variant.t);
  updatedAt : Z
}.
End Product.

Module OrderItem.
Record t := mk {
  productId : string;
  productName : string;
  productPrice : Q;
  quantity : Z;
  variantId : option string;
  variantName : option string;
  subtotal : Q
}.
End OrderItem.

Inductive Status := pending | processing | shipped | delivered | cancelled.

Inductive PaymentStatus := pay_pending | paid | failed | refunded.

Module Order.
Record t := mk {
  userId : option string;
  orderNumber : string;
  customerEmail : string;
  customerName : string;
  shippingAddress : string;
  billingAddress : string;
  items : list OrderItem.t;
  subtotal : Q;
  tax : Q;
  shipping : Q;
  total : Q;
  status : Status;
  paymentStatus : PaymentStatus;
  paymentToken : option string;
  notes : string;
  createdAt : Z;
  updatedAt : Z;
  cancelledAt : option Z;
  cancellationReason : option string;
  cancelledBy : option string
}.
End Order.

Inductive DiscountType := percentage | fixed | freeShipping.

Module Coupon.
Record t := mk {
  code : string;
  description : string;
  discountType : DiscountType;
  discountValue : Q;
  minOrderAmount : option Q;
  maxDiscountAmount : option Q;
  maxUses : option Z;
  maxUsesPerUser : option Z;
  startDate : option Z;
  expiryDate : option Z;
  applicableCategories : option (list string);
  applicableProducts : option (list string);
  isActive : bool;
  usedCount : Z;
  lastUsedAt : option Z
}.
End Coupon.

Module CouponUsage.
Record t := mk {
  couponId : string;
  orderId : string;
  userId : string;
  userEmail : string;
  discountAmount : Q;
  appliedAt : Z
}.
End CouponUsage.

(** The authenticated caller, as the auth middleware attaches it to the
    request. *)
Module User.
Record t := mk {
  id : string;
  email : string;
  role : string
}.
End User.

(** ** The store *)

Record Store := mkStore {
  products : gmap string Product.t;
  orders : gmap string Order.t;
  coupons : list (string * Coupon.t);
  couponUsage : list CouponUsage.t
}.

(** ** JavaScript truthiness, as far as the handlers rely on it *)

Definition truthy_string (s : option string) : bool :=
  match s with
  | Some s => negb (String.eqb s "")
  | None => false
  end.

Definition truthy_Z (n : option Z) : bool :=
  match n with
  | Some n => negb (n =? 0)%Z
  | None => false
  end.

Definition truthy_Q (q : option Q) : bool :=
  match q with
  | Some q => negb (Qeq_bool q 0)
  | None => false
  end.

(** [a || b] on an optional string with a default. *)
Definition or_string (a : option string) (b : string) : string :=
  match a with
  | Some s => if String.eqb s "" then b else s
  | None => b
  end.

(** [x < y] on rationals, as a boolean. *)
Definition Qltb (x y : Q) : bool := negb (Qle_bool y x).

(** ** Transactions

    [db.runTransaction(async (transaction) => ...)]: the callback runs against
    a snapshot of the store and a write batch, initially empty. *)

Record JsError := Error { message : string }.

Inductive Write :=
| IncrementStock (productId : string) (delta : Z) (now : Z)
| SetVariants (productId : string) (vs : list Variant.t)
| SetOrder (orderId : string) (o : Order.t)
| CancelOrderDoc (orderId : string) (reason : string) (actor : string) (now : Z).

Definition Tx (A : Type) : Type :=
  Store -> list Write -> JsError + (A * list Write).

Definition tx_ret {A} (a : A) : Tx A := fun _ batch => inr (a, batch).

Definition tx_bind {A B} (c : Tx A) (k : A -> Tx B) : Tx B :=
  fun snap batch =>
    match c snap batch with
    | inl e => inl e
    | inr (a, batch') => k a snap batch'
    end.

Definition tx_throw {A} (msg : string) : Tx A := fun _ _ => inl (Error msg).

Notation "'let!' x ':=' c 'in' k" := (tx_bind c (fun x => k))
  (at level 10, x name, c at level 100, k at level 200).
Notation "'let!' ( x , y ) ':=' c 'in' k" :=
  (tx_bind c (fun xy => let x := fst xy in let y := snd xy in k))
  (at level 10, x name, y name, c at level 100, k at level 200).
Notation "'run!' c 'in' k" := (tx_bind c (fun _ => k))
  (at level 10, c at level 100, k at level 200).

Definition READ_AFTER_WRITE_ERROR_MSG : string :=
  "Firestore transactions require all reads to be executed before all writes.".

(** [transaction.get(db.collection('products').doc(id))]: served from the
    snapshot while the write batch is empty; the SDK's [get] throws
    [READ_AFTER_WRITE_ERROR_MSG] otherwise. *)
Definition tx_get_product (id : string) : Tx (option Product.t) :=
  fun snap batch =>
    match batch with
    | [] => inr (products snap !! id, batch)
    | _ :: _ => inl (Error READ_AFTER_WRITE_ERROR_MSG)
    end.

(** [transaction.update] and [transaction.set]: buffered. *)
Definition tx_write (w : Write) : Tx unit :=
  fun _ batch => inr (tt, batch ++ [w]).

Definition set_stock (p : Product.t) (n now : Z) : Product.t :=
  Product.mk (Product.name p) (Product.price p) (Product.isActive p) n
             (Product.variants p) now.

Definition set_variants (p : Product.t) (vs : list Variant.t) : Product.t :=
  Product.mk (Product.name p) (Product.price p) (Product.isActive p)
             (Product.stockQuantity p) (Some vs) (Product.updatedAt p).

Definition set_cancelled (o : Order.t) (reason actor : string) (now : Z)
  : Order.t :=
  Order.mk (Order.userId o) (Order.orderNumber o) (Order.customerEmail o)
           (Order.customerName o) (Order.shippingAddress o)
           (Order.billingAddress o) (Order.items o) (Order.subtotal o)
           (Order.tax o) (Order.shipping o) (Order.total o) cancelled
           (Order.paymentStatus o) (Order.paymentToken o) (Order.notes o)
           (Order.createdAt o) now (Some now) (Some reason) (Some actor).

Definition with_products (st : Store) (ps : gmap string Product.t) : Store :=
  mkStore ps (orders st) (coupons st) (couponUsage st).

Definition with_orders (st : Store) (os : gmap string Order.t) : Store :=
  mkStore (products st) os (coupons st) (couponUsage st).

(** One buffered write applied at commit.  [update] needs the document to
    exist ([None]: the commit is rejected); [set] creates or replaces. *)
Definition apply_write (st : Store) (w : Write) : option Store :=
  match w with
  | IncrementStock pid delta now =>
      match products st !! pid with
      | Some p =>
          Some (with_products st
                  (<[pid := set_stock p (Product.stockQuantity p + delta) now]>
                     (products st)))
      | None => None
      end
  | SetVariants pid vs =>
      match products st !! pid with
      | Some p => Some (with_products st (<[pid := set_variants p vs]> (products st)))
      | None => None
      end
  | SetOrder oid o => Some (with_orders st (<[oid := o]> (orders st)))
  | CancelOrderDoc oid reason actor now =>
      match orders st !! oid with
      | Some o =>
          Some (with_orders st (<[oid := set_cancelled o reason actor now]> (orders st)))
      | None => None
      end
  end.

Fixpoint commit (st : Store) (batch : list Write) : option Store :=
  match batch with
  | [] => Some st
  | w :: rest =>
      match apply_write st w with
      | Some st' => commit st' rest
      | None => None
      end
  end.

Definition NOT_FOUND_MSG : string := "5 NOT_FOUND: No document to update".

(** [db.runTransaction]: all of the batch or nothing. *)
Definition runTransaction {A} (body : Tx A) (st : Store)
  : (JsError + A) * Store :=
  match body st [] with
  | inl e => (inl e, st)
  | inr (a, batch) =>
      match commit st batch with
      | Some st' => (inr a, st')
      | None => (inl (Error NOT_FOUND_MSG), st)
      end
  end.

(** ** [POST /api/orders]: request, environment, response *)

Module Item.
Record t := mk {
  productId : string;
  quantity : Z;
  variantId : option string;
  price : option Q       (* sent by some clients; the handler never reads it *)
}.
End Item.

Module Request.
Record t := mk {
  items : list Item.t;
  customerEmail : string;
  customerName : string;
  shippingAddress : string;
  billingAddress : option string;
  notes : option string;
  paymentToken : option string;
  couponCode : option string;   (* not destructured by the handler *)
  subtotal : option Q;          (* price-like body fields, never read *)
  total : option Q
}.
End Request.

(** What the handler takes from outside the request body: the caller set by
    [optionalAuth], the clock, [generateOrderNumber()] and the id that
    [db.collection('orders').doc()] generates. *)
Record Env := mkEnv {
  user : option User.t;
  now : Z;
  orderNumber : string;
  orderId : string
}.

(** The two express-validator string functions whose definitions live in
    the library: the [isEmail()] check and the [trim()] sanitizer, which
    replaces the field of the request by its trimmed value. *)
Record Validators := mkValidators {
  isEmail : string -> bool;
  trim : string -> string
}.

Definition notEmpty (s : string) : bool := negb (String.eqb s "").

Inductive Response :=
| Success (http : Z) (message : string) (id : string) (order : option Order.t)
| Failure (http : Z) (error : string) (message : string).

Definition valid_order_body (V : Validators) (req : Request.t) : bool :=
  negb (bool_decide (Request.items req = []))
  && forallb (fun i => (1 <=? Item.quantity i)%Z) (Request.items req)
  && isEmail V (Request.customerEmail req)
  && notEmpty (trim V (Request.customerName req)).

(** ** The loop body of the create-order transaction *)

Definition find_variant (vs : list Variant.t) (vid : string)
  : option Variant.t :=
  List.find (fun v => String.eqb (Variant.id v) vid) vs.

(** [findIndex]; [None] stands for -1. *)
Fixpoint findIndex (vs : list Variant.t) (vid : string) : option nat :=
  match vs with
  | [] => None
  | v :: rest =>
      if String.eqb (Variant.id v) vid then Some 0%nat
      else S <$> findIndex rest vid
  end.

Definition take_stock (q : Z) (v : Variant.t) : Variant.t :=
  Variant.mk (Variant.id v) (Variant.name v) (Variant.price v)
             (Variant.stock v - q).

(** Lines 74-87: the unit price and the variant name of a line. *)
Definition price_line (product : Product.t) (item : Item.t)
  : Tx (Q * option string) :=
  match Item.variantId item, Product.variants product with
  | Some vid, Some vs =>
      if truthy_string (Some vid) && (0 <? length vs)%nat then
        match find_variant vs vid with
        | Some variant =>
            let itemPrice :=
              if truthy_Q (Variant.price variant)
              then default (Product.price product) (Variant.price variant)
              else Product.price product in
            if (Variant.stock variant <? Item.quantity item)%Z then
              tx_throw ("Insufficient stock for variant " +:+ Variant.name variant)
            else tx_ret (itemPrice, Some (Variant.name variant))
        | None => tx_ret (Product.price product, None)
        end
      else tx_ret (Product.price product, None)
  | _, _ => tx_ret (Product.price product, None)
  end.

(** Lines 108-117: the variant's own counter. *)
Definition update_variant_stock (product : Product.t) (item : Item.t)
  : Tx unit :=
  match Item.variantId item, Product.variants product with
  | Some vid, Some vs =>
      if truthy_string (Some vid) then
        match findIndex vs vid with
        | Some variantIndex =>
            tx_write (SetVariants (Item.productId item)
                        (alter (take_stock (Item.quantity item)) variantIndex vs))
        | None => tx_ret tt
        end
      else tx_ret tt
  | _, _ => tx_ret tt
  end.

Definition null_if_falsy (s : option string) : option string :=
  if truthy_string s then s else None.

(** Lines 57-117: one iteration of [for (const item of items)]; yields the
    line subtotal and the order item pushed. *)
Definition order_line (now : Z) (item : Item.t) : Tx (Q * OrderItem.t) :=
  let! productDoc := tx_get_product (Item.productId item) in
  match productDoc with
  | None => tx_throw ("Product " +:+ Item.productId item +:+ " not found")
  | Some product =>
      if negb (Product.isActive product) then
        tx_throw ("Product " +:+ Product.name product +:+ " is not available")
      else if (Product.stockQuantity product <? Item.quantity item)%Z then
        tx_throw ("Insufficient stock for product " +:+ Product.name product)
      else
        let! (itemPrice, variantName) := price_line product item in
        let itemSubtotal := (itemPrice * inject_Z (Item.quantity item))%Q in
        run! tx_write (IncrementStock (Item.productId item)
                         (- Item.quantity item) now) in
        run! update_variant_stock product item in
        tx_ret (itemSubtotal,
                OrderItem.mk (Item.productId item) (Product.name product)
                  itemPrice (Item.quantity item)
                  (null_if_falsy (Item.variantId item)) variantName
                  itemSubtotal)
  end.

Fixpoint order_lines (now : Z) (items : list Item.t)
    (subtotal : Q) (orderItems : list OrderItem.t)
  : Tx (Q * list OrderItem.t) :=
  match items with
  | [] => tx_ret (subtotal, orderItems)
  | item :: rest =>
      let! (itemSubtotal, orderItem) := order_line now item in
      order_lines now rest (subtotal + itemSubtotal)%Q (orderItems ++ [orderItem])
  end.

Definition TAX_RATE : Q := 1 # 10.
Definition FREE_SHIPPING_OVER : Q := 50.
Definition FLAT_SHIPPING : Q := 999 # 100.

(** Lines 120-147: the totals and the order document. *)
Definition build_order (V : Validators) (env : Env) (req : Request.t)
    (subtotal : Q) (orderItems : list OrderItem.t) : Order.t :=
  let tax := (subtotal * TAX_RATE)%Q in
  let shipping := if Qltb FREE_SHIPPING_OVER subtotal then 0%Q else FLAT_SHIPPING in
  let total := (subtotal + tax + shipping)%Q in
  Order.mk (User.id <$> user env) (orderNumber env)
    (Request.customerEmail req) (trim V (Request.customerName req))
    (Request.shippingAddress req)
    (default (Request.shippingAddress req) (Request.billingAddress req))
    orderItems subtotal tax shipping total
    pending pay_pending (null_if_falsy (Request.paymentToken req))
    (or_string (Request.notes req) "")
    (now env) (now env) None None None.

(** Lines 51-156: the transaction callback. *)
Definition create_order_tx (V : Validators) (env : Env) (req : Request.t)
  : Tx (string * Order.t) :=
  let! (subtotal, orderItems) := order_lines (now env) (Request.items req) 0%Q [] in
  let order := build_order V env req subtotal orderItems in
  run! tx_write (SetOrder (orderId env) order) in
  tx_ret (orderId env, order).

(** [router.post('/', optionalAuth, ...)]. *)
Definition placeOrder (V : Validators) (env : Env) (req : Request.t)
    (st : Store) : Response * Store :=
  if negb (valid_order_body V req) then
    (Failure 400 "ValidationError" "Invalid input", st)
  else
    match runTransaction (create_order_tx V env req) st with
    | (inr (id, order), st') =>
        (Success 201 "Order created successfully" id (Some order), st')
    | (inl e, st') =>
        (Failure 500 "ServerError" (or_string (Some (message e)) "Failed to create order"), st')
    end.

(** ** [POST /api/orders/:id/cancel] *)

Definition status_name (s : Status) : string :=
  match s with
  | pending => "pending"
  | processing => "processing"
  | shipped => "shipped"
  | delivered => "delivered"
  | cancelled => "cancelled"
  end.

(** [['pending', 'processing'].includes(order.status)]. *)
Definition cancellable (s : Status) : bool :=
  match s with
  | pending | processing => true
  | _ => false
  end.

Fixpoint refund_stock (now : Z) (items : list OrderItem.t) : Tx unit :=
  match items with
  | [] => tx_ret tt
  | item :: rest =>
      run! tx_write (IncrementStock (OrderItem.productId item)
                       (OrderItem.quantity item) now) in
      refund_stock now rest
  end.

Definition cancel_order_tx (now : Z) (caller : User.t) (id : string)
    (reason : option string) (order : Order.t) : Tx unit :=
  run! refund_stock now (Order.items order) in
  tx_write (CancelOrderDoc id (or_string reason "Cancelled by customer")
              (User.id caller) now).

Definition ADMIN_ROLE : string := "GronderfulBlogs".

(** [router.post('/:id/cancel', authenticateToken, ...)]. *)
Definition cancelOrder (caller : User.t) (now : Z) (id : string)
    (reason : option string) (st : Store) : Response * Store :=
  match orders st !! id with
  | None => (Failure 404 "NOT_FOUND" "Order not found", st)
  | Some order =>
      if negb (String.eqb (User.role caller) ADMIN_ROLE)
         && negb (bool_decide (Order.userId order = Some (User.id caller)))
      then (Failure 403 "FORBIDDEN" "Access denied", st)
      else if negb (cancellable (Order.status order)) then
        (Failure 400 "INVALID_STATUS"
           ("Cannot cancel order with status: " +:+ status_name (Order.status order)),
         st)
      else
        match runTransaction (cancel_order_tx now caller id reason order) st with
        | (inr _, st') =>
            (Success 200 "Order cancelled successfully" id (orders st' !! id), st')
        | (inl _, st') =>
            (Failure 500 "SERVER_ERROR" "Failed to cancel order", st')
        end
  end.

(** ** [POST /api/coupons/validate] *)

Module ValidateRequest.
Record t := mk {
  code : string;
  orderTotal : Q;
  userId : option string;
  categoryId : option string;
  productIds : list string
}.
End ValidateRequest.

(** Responses carry the status and the [error] code; the human-readable
    [message] is left out. *)
Inductive CouponResponse :=
| CouponValid (id code : string) (discountType : DiscountType)
    (discountValue discountAmount : Q) (description : string)
    (isFreeShipping : bool)
| CouponApplied
| CouponFailure (http : Z) (error : string).

(** The queries a call sends to the store, in the order it sends them. *)
Inductive Read :=
| QueryCoupons (code : string)
| QueryCouponUsage (couponId userId : string).

(** [toUpperCase()] on the ASCII letters; other characters are kept. *)
Definition upper_ascii (c : ascii) : ascii :=
  let n := nat_of_ascii c in
  if (97 <=? n)%nat && (n <=? 122)%nat then ascii_of_nat (n - 32) else c.

Fixpoint toUpperCase (s : string) : string :=
  match s with
  | EmptyString => EmptyString
  | String c rest => String (upper_ascii c) (toUpperCase rest)
  end.

(** [where('code','==',code).where('isActive','==',true).limit(1)]. *)
Definition find_active_coupon (code : string) (cs : list (string * Coupon.t))
  : option (string * Coupon.t) :=
  List.find (fun d => String.eqb (Coupon.code (snd d)) code
                      && Coupon.isActive (snd d)) cs.

(** [where('couponId','==',id).where('userId','==',uid)] and [.size]. *)
Definition user_usage_count (id uid : string) (us : list CouponUsage.t) : Z :=
  Z.of_nat (length (List.filter
    (fun u => String.eqb (CouponUsage.couponId u) id
              && String.eqb (CouponUsage.userId u) uid) us)).

Definition includes (x : string) (l : list string) : bool :=
  existsb (String.eqb x) l.

(** The conditions of the seven [if]s of lines 57-134, each true when the
    handler returns at that [if]. *)
Definition not_started (now : Z) (c : Coupon.t) : bool :=
  match Coupon.startDate c with
  | Some d => (now <? d)%Z
  | None => false
  end.

Definition expired (now : Z) (c : Coupon.t) : bool :=
  match Coupon.expiryDate c with
  | Some d => (d <? now)%Z
  | None => false
  end.

Definition limit_reached (c : Coupon.t) : bool :=
  truthy_Z (Coupon.maxUses c)
  && (default 0%Z (Coupon.maxUses c) <=? Coupon.usedCount c)%Z.

Definition reads_user_usage (req : ValidateRequest.t) (c : Coupon.t) : bool :=
  truthy_string (ValidateRequest.userId req)
  && truthy_Z (Coupon.maxUsesPerUser c).

Definition user_limit_reached (req : ValidateRequest.t) (id : string)
    (c : Coupon.t) (us : list CouponUsage.t) : bool :=
  reads_user_usage req c
  && (default 0%Z (Coupon.maxUsesPerUser c)
      <=? user_usage_count id (default "" (ValidateRequest.userId req)) us)%Z.

Definition minimum_not_met (orderTotal : Q) (c : Coupon.t) : bool :=
  truthy_Q (Coupon.minOrderAmount c)
  && Qltb orderTotal (default 0%Q (Coupon.minOrderAmount c)).

Definition category_not_applicable (req : ValidateRequest.t) (c : Coupon.t)
  : bool :=
  match Coupon.applicableCategories c with
  | Some cats =>
      (0 <? length cats)%nat
      && (negb (truthy_string (ValidateRequest.categoryId req))
          || negb (includes (default "" (ValidateRequest.categoryId req)) cats))
  | None => false
  end.

Definition product_not_applicable (req : ValidateRequest.t) (c : Coupon.t)
  : bool :=
  match Coupon.applicableProducts c with
  | Some prods =>
      (0 <? length prods)%nat
      && negb (existsb (fun pid => includes pid prods)
                 (ValidateRequest.productIds req))
  | None => false
  end.

(** [Math.round(x * 100) / 100]. *)
Definition round_cents (x : Q) : Q := Qfloor (x * 100 + (1 # 2)) # 100.

Definition Qmin_js (x y : Q) : Q := if Qle_bool x y then x else y.

(** Lines 136-149. *)
Definition discount_amount (orderTotal : Q) (c : Coupon.t) : Q :=
  let d :=
    match Coupon.discountType c with
    | percentage =>
        let d := (orderTotal * Coupon.discountValue c / 100)%Q in
        if truthy_Q (Coupon.maxDiscountAmount c)
        then Qmin_js d (default 0%Q (Coupon.maxDiscountAmount c))
        else d
    | fixed => Coupon.discountValue c
    | freeShipping => 0%Q
    end in
  Qmin_js d orderTotal.

Definition valid_validate_body (V : Validators) (req : ValidateRequest.t)
  : bool :=
  notEmpty (trim V (ValidateRequest.code req))
  && Qle_bool 0 (ValidateRequest.orderTotal req).

Definition bad_request (error : string) : CouponResponse :=
  CouponFailure 400 error.

(** [router.post('/validate', ...)]: the response and the queries sent. *)
Definition validateCoupon (V : Validators) (now : Z)
    (req : ValidateRequest.t) (st : Store) : CouponResponse * list Read :=
  if negb (valid_validate_body V req) then
    (bad_request "VALIDATION_ERROR", [])
  else
    let code := toUpperCase (trim V (ValidateRequest.code req)) in
    match find_active_coupon code (coupons st) with
    | None =>
        (CouponFailure 404 "INVALID_COUPON",
         [QueryCoupons code])
    | Some (id, coupon) =>
        if not_started now coupon then
          (bad_request "COUPON_NOT_STARTED",
           [QueryCoupons code])
        else if expired now coupon then
          (bad_request "COUPON_EXPIRED",
           [QueryCoupons code])
        else if limit_reached coupon then
          (bad_request "COUPON_LIMIT_REACHED",
           [QueryCoupons code])
        else
          let reads :=
            if reads_user_usage req coupon
            then [QueryCoupons code;
                  QueryCouponUsage id (default "" (ValidateRequest.userId req))]
            else [QueryCoupons code] in
          if user_limit_reached req id coupon (couponUsage st) then
            (bad_request "USER_LIMIT_REACHED",
             reads)
          else if minimum_not_met (ValidateRequest.orderTotal req) coupon then
            (bad_request "MINIMUM_NOT_MET", reads)
          else if category_not_applicable req coupon then
            (bad_request "CATEGORY_NOT_APPLICABLE",
             reads)
          else if product_not_applicable req coupon then
            (bad_request "PRODUCT_NOT_APPLICABLE",
             reads)
          else
            (CouponValid id (Coupon.code coupon) (Coupon.discountType coupon)
               (Coupon.discountValue coupon)
               (round_cents (discount_amount (ValidateRequest.orderTotal req) coupon))
               (Coupon.description coupon)
               (match Coupon.discountType coupon with
                | freeShipping => true
                | _ => false
                end),
             reads)
    end.

(** ** [POST /api/coupons/apply] *)

Module ApplyRequest.
Record t := mk {
  couponId : string;
  orderId : string;
  discountAmount : Q
}.
End ApplyRequest.

Definition valid_apply_body (req : ApplyRequest.t) : bool :=
  notEmpty (ApplyRequest.couponId req)
  && notEmpty (ApplyRequest.orderId req)
  && Qle_bool 0 (ApplyRequest.discountAmount req).

Definition record_use (now : Z) (c : Coupon.t) : Coupon.t :=
  Coupon.mk (Coupon.code c) (Coupon.description c) (Coupon.discountType c)
    (Coupon.discountValue c) (Coupon.minOrderAmount c)
    (Coupon.maxDiscountAmount c) (Coupon.maxUses c) (Coupon.maxUsesPerUser c)
    (Coupon.startDate c) (Coupon.expiryDate c) (Coupon.applicableCategories c)
    (Coupon.applicableProducts c) (Coupon.isActive c)
    (Coupon.usedCount c + 1) (Some now).

(** [db.collection('coupons').doc(id).update(...)]: [None] when there is no
    such document.  Document ids are unique within a collection. *)
Fixpoint update_coupon (id : string) (f : Coupon.t -> Coupon.t)
    (cs : list (string * Coupon.t)) : option (list (string * Coupon.t)) :=
  match cs with
  | [] => None
  | (k, c) :: rest =>
      if String.eqb k id then Some ((k, f c) :: rest)
      else cons (k, c) <$> update_coupon id f rest
  end.

Definition lookup_coupon (id : string) (cs : list (string * Coupon.t))
  : option Coupon.t :=
  snd <$> List.find (fun d => String.eqb (fst d) id) cs.

(** [router.post('/apply', authenticateToken, ...)]: two separate writes,
    the usage record first. *)
Definition applyCoupon (caller : User.t) (now : Z) (req : ApplyRequest.t)
    (st : Store) : CouponResponse * Store :=
  if negb (valid_apply_body req) then
    (bad_request "VALIDATION_ERROR", st)
  else
    let usageData :=
      CouponUsage.mk (ApplyRequest.couponId req) (ApplyRequest.orderId req)
        (User.id caller) (User.email caller)
        (ApplyRequest.discountAmount req) now in
    let st1 := mkStore (products st) (orders st) (coupons st)
                 (couponUsage st ++ [usageData]) in
    match update_coupon (ApplyRequest.couponId req) (record_use now) (coupons st1) with
    | Some cs =>
        (CouponApplied,
         mkStore (products st1) (orders st1) cs (couponUsage st1))
    | None =>
        (CouponFailure 500 "SERVER_ERROR", st1)
    end.

(** ** Derived descriptions used in the statements *)

(** The writes [update_variant_stock] buffers. *)
Definition variant_writes (product : Product.t) (item : Item.t) : list Write :=
  match Item.variantId item, Product.variants product with
  | Some vid, Some vs =>
      if truthy_string (Some vid) then
        match findIndex vs vid with
        | Some variantIndex =>
            [SetVariants (Item.productId item)
               (alter (take_stock (Item.quantity item)) variantIndex vs)]
        | None => []
        end
      else []
  | _, _ => []
  end.

(** The product document once the writes of one line are committed. *)
Definition reserve (now : Z) (item : Item.t) (product : Product.t)
  : Product.t :=
  let p1 := set_stock product
              (Product.stockQuantity product - Item.quantity item) now in
  match variant_writes product item with
  | SetVariants _ vs :: _ => set_variants p1 vs
  | _ => p1
  end.

(** The stock of variant [vid] of a product document, when it has one. *)
Definition variant_stock (vid : string) (p : Product.t) : option Z :=
  Variant.stock <$> find_variant (default [] (Product.variants p)) vid.

Definition is_failure (r : Response) : bool :=
  match r with
  | Failure _ _ _ => true
  | Success _ _ _ _ => false
  end.

(** The order document and the store that a one-line request produces. *)
Definition line_item (item : Item.t) (product : Product.t) (itemPrice : Q)
    (variantName : option string) : OrderItem.t :=
  OrderItem.mk (Item.productId item) (Product.name product) itemPrice
    (Item.quantity item) (null_if_falsy (Item.variantId item)) variantName
    (itemPrice * inject_Z (Item.quantity item))%Q.

Definition placed_order (V : Validators) (env : Env) (req : Request.t)
    (item : Item.t) (product : Product.t) (itemPrice : Q)
    (variantName : option string) : Order.t :=
  build_order V env req (0 + itemPrice * inject_Z (Item.quantity item))%Q
    [line_item item product itemPrice variantName].

Definition placed_store (V : Validators) (env : Env) (req : Request.t)
    (item : Item.t) (product : Product.t) (itemPrice : Q)
    (variantName : option string) (st : Store) : Store :=
  mkStore (<[Item.productId item := reserve (now env) item product]> (products st))
          (<[orderId env := placed_order V env req item product itemPrice variantName]>
             (orders st))
          (coupons st) (couponUsage st).

Fixpoint placeOrders (V : Validators) (calls : list (Env * Request.t))
    (st : Store) : list Response * Store :=
  match calls with
  | [] => ([], st)
  | call :: rest =>
      let r := placeOrder V (fst call) (snd call) st in
      let rs := placeOrders V rest (snd r) in
      (fst r :: fst rs, snd rs)
  end.

(** The units of product [pid] on the lines of an order. *)
Fixpoint ordered_quantity (pid : string) (items : list OrderItem.t) : Z :=
  match items with
  | [] => 0
  | i :: rest =>
      if String.eqb (OrderItem.productId i) pid
      then OrderItem.quantity i + ordered_quantity pid rest
      else ordered_quantity pid rest
  end.

(** The decrement a call applied to product [pid]: what its order holds
    when it created one, nothing otherwise. *)
Definition decrement_of (pid : string) (r : Response) : Z :=
  match r with
  | Success _ _ _ (Some o) => ordered_quantity pid (Order.items o)
  | _ => 0
  end.

Fixpoint total_decrement (pid : string) (rs : list Response) : Z :=
  match rs with
  | [] => 0
  | r :: rest => decrement_of pid r + total_decrement pid rest
  end.

Definition stock_of (pid : string) (st : Store) : option Z :=
  Product.stockQuantity <$> products st !! pid.

Definition no_validation : Validators := mkValidators (fun _ => true) (fun s => s).

(** A line the transaction accepts: the product exists, is active, has the
    stock, and so has the selected variant. *)
Definition line_available (st : Store) (item : Item.t) : bool :=
  match products st !! Item.productId item with
  | None => false
  | Some product =>
      Product.isActive product
      && (Item.quantity item <=? Product.stockQuantity product)%Z
      && match price_line product item st [] with
         | inr _ => true
         | inl _ => false
         end
  end.

Definition mug : Product.t :=
  Product.mk "Mug" (1001 # 100) true 5
    (Some [Variant.mk "v1" "Red" None 3; Variant.mk "v2" "Blue" (Some 12%Q) 1]) 0.

Definition pen : Product.t := Product.mk "Pen" 2%Q true 1 None 0.

Definition free_shipping_coupon : Coupon.t :=
  Coupon.mk "FREESHIP" "Free shipping" freeShipping 0%Q None None None None
    None None None None true 0 None.

Definition shop : Store :=
  mkStore {[ "p1" := mug; "p2" := pen ]} ∅ [("c1", free_shipping_coupon)] [].

Definition guest (id : string) : Env := mkEnv None 100 "ORD-TEST-0001" id.

Definition cart (items : list Item.t) : Request.t :=
  Request.mk items "ann@example.com" "Ann" "1 Main St" None None None None
    None None.








Definition refund_writes (now : Z) (items : list OrderItem.t) : list Write :=
  map (fun i => IncrementStock (OrderItem.productId i) (OrderItem.quantity i) now)
      items.

Definition cancel_write (now : Z) (caller : User.t) (id : string)
    (reason : option string) : Write :=
  CancelOrderDoc id (or_string reason "Cancelled by customer") (User.id caller) now.

(** The caller passes the authorization check of the cancel route. *)
Definition may_cancel (caller : User.t) (order : Order.t) : Prop :=
  User.role caller = ADMIN_ROLE \/ Order.userId order = Some (User.id caller).

Definition shipped_order : Order.t :=
  Order.mk (Some "u1") "ORD-TEST-0009" "ann@example.com" "Ann" "1 Main St"
    "1 Main St" [OrderItem.mk "p2" "Pen" 2%Q 1 None None 2%Q]
    2%Q (2 # 10)%Q (999 # 100)%Q (1219 # 100)%Q shipped paid None "" 50 60
    None None None.

Definition shop_with_shipped_order : Store :=
  mkStore (products shop) {[ "o9" := shipped_order ]} (coupons shop) [].

Definition administrator : User.t := User.mk "admin" "admin@example.com" ADMIN_ROLE.

Definition variant_stock_of (pid vid : string) (st : Store) : option Z :=
  products st !! pid ≫= variant_stock vid.

Definition ApplyCall : Type := User.t * Z * ApplyRequest.t.

Fixpoint applyCoupons (calls : list ApplyCall) (st : Store)
  : list CouponResponse * Store :=
  match calls with
  | [] => ([], st)
  | (caller, now, req) :: rest =>
      let r := applyCoupon caller now req st in
      let rs := applyCoupons rest (snd r) in
      (fst r :: fst rs, snd rs)
  end.

Definition used_count (id : string) (st : Store) : option Z :=
  Coupon.usedCount <$> lookup_coupon id (coupons st).

Definition max_uses (id : string) (st : Store) : option (option Z) :=
  Coupon.maxUses <$> lookup_coupon id (coupons st).

Definition single_use_coupon : Coupon.t :=
  Coupon.mk "ONCE" "Five off, once" fixed 5%Q None None (Some 1%Z) None
    None None None None true 0 None.

Definition coupon_shop : Store := mkStore ∅ ∅ [("c2", single_use_coupon)] [].

Definition redeem_by (uid : string) : ApplyCall :=
  (User.mk uid (uid +:+ "@example.com") "customer", 100%Z,
   ApplyRequest.mk "c2" ("order-of-" +:+ uid) 5%Q).



Definition is_valid (r : CouponResponse) : bool :=
  match r with
  | CouponValid _ _ _ _ _ _ _ => true
  | _ => false
  end.


(** ** [PATCH /api/orders/:id/status] *)

(** The [requireAdmin] middleware, for a caller [authenticateToken] let in. *)
Definition requireAdmin (caller : User.t) (next : Response * Store)
    (st : Store) : Response * Store :=
  if String.eqb (User.role caller) ADMIN_ROLE then next
  else (Failure 403 "Forbidden" "Admin access required", st).

(** [orderRef.update({status, updatedAt, paymentStatus?})]. *)
Definition set_status (o : Order.t) (s : Status) (ps : option PaymentStatus)
    (now : Z) : Order.t :=
  Order.mk (Order.userId o) (Order.orderNumber o) (Order.customerEmail o)
           (Order.customerName o) (Order.shippingAddress o)
           (Order.billingAddress o) (Order.items o) (Order.subtotal o)
           (Order.tax o) (Order.shipping o) (Order.total o) s
           (default (Order.paymentStatus o) ps) (Order.paymentToken o)
           (Order.notes o) (Order.createdAt o) now (Order.cancelledAt o)
           (Order.cancellationReason o) (Order.cancelledBy o).

(** [router.patch('/:id/status', authenticateToken, requireAdmin, ...)].
    The body is typed, so the [isIn] validators hold. *)
Definition updateOrderStatus (caller : User.t) (now : Z) (id : string)
    (status : Status) (paymentStatus : option PaymentStatus) (st : Store)
  : Response * Store :=
  requireAdmin caller
    (match orders st !! id with
     | None => (Failure 404 "NotFound" "Order not found", st)
     | Some o =>
         let st' := with_orders st
                      (<[id := set_status o status paymentStatus now]> (orders st)) in
         (Success 200 "Order status updated successfully" id (orders st' !! id), st')
     end) st.

(** The stockQuantity of [pid] with [q] more units. *)
Definition restocked (q : Z) (stock : option Z) : option Z :=
  (fun s => s + q)%Z <$> stock.

(** The variants of a product document. *)
Definition variants_of (pid : string) (st : Store) : option (option (list Variant.t)) :=
  Product.variants <$> products st !! pid.

Definition pending_order : Order.t :=
  Order.mk (Some "u1") "ORD-TEST-0007" "ann@example.com" "Ann" "1 Main St"
    "1 Main St"
    [OrderItem.mk "p2" "Pen" 2%Q 1 None None 2%Q;
     OrderItem.mk "p1" "Mug" (1001 # 100)%Q 1 (Some "v1") (Some "Red") (1001 # 100)%Q;
     OrderItem.mk "p2" "Pen" 2%Q 2 None None 4%Q]
    (1601 # 100)%Q (1601 # 1000)%Q (999 # 100)%Q (27601 # 1000)%Q
    pending pay_pending None "" 50 50 None None None.

Definition shop_with_pending_order : Store :=
  mkStore (products shop) {[ "o7" := pending_order ]} (coupons shop) [].

(** The same shop after the pen was removed from the catalogue. *)
Definition shop_without_pen : Store :=
  mkStore {[ "p1" := mug ]} {[ "o7" := pending_order ]} (coupons shop) [].

Definition ann : User.t := User.mk "u1" "ann@example.com" "customer".

(** ** [GET /api/coupons/admin/:id] *)

Inductive CouponAdminResponse :=
| CouponDetails (id : string) (coupon : Coupon.t) (usageCount : Z)
| CouponCreated (id : string) (coupon : Coupon.t)
| CouponDeleted (permanent : bool)
| CouponAdminFailure (http : Z) (error : string).

(** [db.collection('couponUsage').where('couponId','==',id)] and [.size]. *)
Definition usage_count (id : string) (us : list CouponUsage.t) : Z :=
  Z.of_nat (length (List.filter
    (fun u => String.eqb (CouponUsage.couponId u) id) us)).

(** [router.get('/admin/:id', authenticateToken, requireAdmin, ...)]. *)
Definition getCoupon (caller : User.t) (id : string) (st : Store)
  : CouponAdminResponse :=
  if negb (String.eqb (User.role caller) ADMIN_ROLE) then
    CouponAdminFailure 403 "Forbidden"
  else
    match lookup_coupon id (coupons st) with
    | None => CouponAdminFailure 404 "NOT_FOUND"
    | Some c => CouponDetails id c (usage_count id (couponUsage st))
    end.

(** The number of usage records of user [uid] for coupon [id]. *)
Definition user_usage (id uid : string) (st : Store) : Z :=
  user_usage_count id uid (couponUsage st).

(** The coupon can no longer be used after one more redemption by [uid]:
    its global limit or its limit per user is then reached. *)
Definition exhausted_by_next_use (uid : string) (id : string) (c : Coupon.t)
    (st : Store) : Prop :=
  (exists M, Coupon.maxUses c = Some M /\ M <> 0%Z
             /\ (M <= Coupon.usedCount c + 1)%Z)
  \/ (exists m, Coupon.maxUsesPerUser c = Some m /\ m <> 0%Z /\ uid <> ""
                /\ (m <= user_usage id uid st + 1)%Z).

(** The coupon exists and its usedCount equals the number of its usage
    records. *)
Definition counted (id : string) (st : Store) : Prop :=
  exists c, lookup_coupon id (coupons st) = Some c
            /\ Coupon.usedCount c = usage_count id (couponUsage st).

(** ** Product reviews (second half of [functions/routes/orders.js])

    The review routes keep their documents in a [reviews] collection and
    write two fields of the product documents, [averageRating] and
    [reviewCount]; these two fields are kept in [ratings], keyed by product
    id, beside the product fields of [Product.t]. *)

Module Review.
Record t := mk {
  productId : string;
  productName : string;
  userId : string;
  userName : string;
  userEmail : string;
  rating : Z;
  title : string;
  comment : string;
  photos : list string;
  verifiedPurchase : bool;
  helpfulCount : Z;
  unhelpfulCount : Z;
  isApproved : bool;
  createdAt : Z;
  updatedAt : Z;
  moderatedBy : option string;
  moderatedAt : option Z;
  moderationNote : option string
}.
End Review.

Module Rating.
Record t := mk {
  averageRating : Q;
  reviewCount : Z
}.
End Rating.

Record ReviewStore := mkReviewStore {
  db : Store;
  reviews : gmap string Review.t;
  ratings : gmap string Rating.t
}.

(** The express-validator functions the review routes use. *)
Record ReviewValidators := mkReviewValidators {
  base : Validators;
  isURL : string -> bool;
  isLength : nat -> string -> bool      (* [isLength({ max })] *)
}.

Inductive ReviewResponse :=
| ReviewSuccess (http : Z) (id : string) (review : option Review.t)
| ReviewFailure (http : Z) (error : string).

(** [Math.round(x * 10) / 10]. *)
Definition round_tenths (x : Q) : Q := (Qfloor (x * 10 + (1 # 2))%Q # 10)%Q.

(** [where('productId','==',pid).where('isApproved','==',true)]. *)
Definition approved_reviews (pid : string) (rs : gmap string Review.t)
  : gmap string Review.t :=
  filter (fun kv => Review.productId (snd kv) = pid
                    /\ Review.isApproved (snd kv) = true) rs.

Definition total_rating (rs : gmap string Review.t) : Z :=
  map_fold (fun _ r acc => (acc + Review.rating r)%Z) 0%Z rs.

(** Lines 1291-1311 of [updateProductRating]: the two values written. *)
Definition product_rating (pid : string) (rs : gmap string Review.t)
  : Rating.t :=
  let approved := approved_reviews pid rs in
  let totalReviews := Z.of_nat (size approved) in
  let averageRating :=
    if (0 <? totalReviews)%Z
    then (inject_Z (total_rating approved) / inject_Z totalReviews)%Q
    else 0%Q in
  Rating.mk (round_tenths averageRating) totalReviews.

(** [updateProductRating(productId)]: when the product document is missing
    the update throws, and the function catches and logs the error. *)
Definition updateProductRating (now : Z) (pid : string) (rst : ReviewStore)
  : ReviewStore :=
  match products (db rst) !! pid with
  | None => rst
  | Some p =>
      mkReviewStore
        (with_products (db rst)
           (<[pid := set_stock p (Product.stockQuantity p) now]> (products (db rst))))
        (reviews rst)
        (<[pid := product_rating pid (reviews rst)]> (ratings rst))
  end.

Module ReviewBody.
Record t := mk {
  productId : string;
  rating : Z;
  title : string;
  comment : string;
  photos : list string
}.
End ReviewBody.

Definition valid_review_body (RV : ReviewValidators) (b : ReviewBody.t) : bool :=
  notEmpty (ReviewBody.productId b)
  && (1 <=? ReviewBody.rating b)%Z && (ReviewBody.rating b <=? 5)%Z
  && notEmpty (trim (base RV) (ReviewBody.title b))
  && isLength RV 100 (trim (base RV) (ReviewBody.title b))
  && notEmpty (trim (base RV) (ReviewBody.comment b))
  && isLength RV 2000 (trim (base RV) (ReviewBody.comment b))
  && forallb (isURL RV) (ReviewBody.photos b).

(** [email.split('@')[0]]. *)
Fixpoint before_at (s : string) : string :=
  match s with
  | EmptyString => EmptyString
  | String c rest =>
      if Ascii.eqb c "@"%char then EmptyString else String c (before_at rest)
  end.

(** [where('productId','==',pid).where('userId','==',uid).limit(1)] is not
    empty. *)
Definition already_reviewed (pid uid : string) (rs : gmap string Review.t)
  : bool :=
  existsb (fun kv => String.eqb (Review.productId (snd kv)) pid
                     && String.eqb (Review.userId (snd kv)) uid)
          (map_to_list rs).

(** Lines 918-929: some delivered order of the user holds the product. *)
Definition purchased (pid uid : string) (os : gmap string Order.t) : bool :=
  existsb (fun kv =>
             bool_decide (Order.userId (snd kv) = Some uid)
             && match Order.status (snd kv) with delivered => true | _ => false end
             && existsb (fun item => String.eqb (OrderItem.productId item) pid)
                        (Order.items (snd kv)))
          (map_to_list os).

(** [router.post('/', authenticateToken, ...)] of the review routes. *)
Definition createReview (RV : ReviewValidators) (caller : User.t)
    (displayName : option string) (now : Z) (newId : string)
    (b : ReviewBody.t) (rst : ReviewStore) : ReviewResponse * ReviewStore :=
  if negb (valid_review_body RV b) then
    (ReviewFailure 400 "VALIDATION_ERROR", rst)
  else
    match products (db rst) !! ReviewBody.productId b with
    | None => (ReviewFailure 404 "PRODUCT_NOT_FOUND", rst)
    | Some product =>
        if already_reviewed (ReviewBody.productId b) (User.id caller) (reviews rst)
        then (ReviewFailure 409 "ALREADY_REVIEWED", rst)
        else
          let reviewData :=
            Review.mk (ReviewBody.productId b) (Product.name product)
              (User.id caller)
              (or_string displayName (before_at (User.email caller)))
              (User.email caller) (ReviewBody.rating b)
              (trim (base RV) (ReviewBody.title b))
              (trim (base RV) (ReviewBody.comment b))
              (ReviewBody.photos b)
              (purchased (ReviewBody.productId b) (User.id caller)
                 (orders (db rst)))
              0 0 false now now None None None in
          (ReviewSuccess 201 newId (Some reviewData),
           mkReviewStore (db rst) (<[newId := reviewData]> (reviews rst))
             (ratings rst))
    end.

Module ReviewEdit.
Record t := mk {
  rating : option Z;
  title : option string;
  comment : option string;
  photos : option (list string)
}.
End ReviewEdit.

Definition no_edit (e : ReviewEdit.t) : bool :=
  match ReviewEdit.rating e, ReviewEdit.title e, ReviewEdit.comment e,
        ReviewEdit.photos e with
  | None, None, None, None => true
  | _, _, _, _ => false
  end.

Definition edit_review (e : ReviewEdit.t) (now : Z) (r : Review.t) : Review.t :=
  Review.mk (Review.productId r) (Review.productName r) (Review.userId r)
    (Review.userName r) (Review.userEmail r)
    (default (Review.rating r) (ReviewEdit.rating e))
    (default (Review.title r) (ReviewEdit.title e))
    (default (Review.comment r) (ReviewEdit.comment e))
    (default (Review.photos r) (ReviewEdit.photos e))
    (Review.verifiedPurchase r) (Review.helpfulCount r)
    (Review.unhelpfulCount r) false (Review.createdAt r) now
    (Review.moderatedBy r) (Review.moderatedAt r) (Review.moderationNote r).

Definition with_reviews (rst : ReviewStore) (rs : gmap string Review.t)
  : ReviewStore :=
  mkReviewStore (db rst) rs (ratings rst).

(** [router.put('/:id', authenticateToken, ...)]. *)
Definition updateReview (caller : User.t) (now : Z) (id : string)
    (e : ReviewEdit.t) (rst : ReviewStore) : ReviewResponse * ReviewStore :=
  match reviews rst !! id with
  | None => (ReviewFailure 404 "NOT_FOUND", rst)
  | Some review =>
      if negb (String.eqb (Review.userId review) (User.id caller)) then
        (ReviewFailure 403 "FORBIDDEN", rst)
      else if no_edit e then (ReviewFailure 400 "VALIDATION_ERROR", rst)
      else
        let rst' := with_reviews rst (<[id := edit_review e now review]> (reviews rst)) in
        (ReviewSuccess 200 id (reviews rst' !! id), rst')
  end.

(** [router.delete('/:id', authenticateToken, ...)]. *)
Definition deleteReview (caller : User.t) (now : Z) (id : string)
    (rst : ReviewStore) : ReviewResponse * ReviewStore :=
  match reviews rst !! id with
  | None => (ReviewFailure 404 "NOT_FOUND", rst)
  | Some review =>
      if negb (String.eqb (Review.userId review) (User.id caller))
         && negb (String.eqb (User.role caller) ADMIN_ROLE)
      then (ReviewFailure 403 "FORBIDDEN", rst)
      else
        (ReviewSuccess 200 id None,
         updateProductRating now (Review.productId review)
           (with_reviews rst (delete id (reviews rst))))
  end.

Definition vote (helpful : bool) (now : Z) (r : Review.t) : Review.t :=
  Review.mk (Review.productId r) (Review.productName r) (Review.userId r)
    (Review.userName r) (Review.userEmail r) (Review.rating r)
    (Review.title r) (Review.comment r) (Review.photos r)
    (Review.verifiedPurchase r)
    (if helpful then Review.helpfulCount r + 1 else Review.helpfulCount r)%Z
    (if helpful then Review.unhelpfulCount r else Review.unhelpfulCount r + 1)%Z
    (Review.isApproved r) (Review.createdAt r) now
    (Review.moderatedBy r) (Review.moderatedAt r) (Review.moderationNote r).

(** [router.post('/:id/helpful', optionalAuth, ...)]. *)
Definition markHelpful (now : Z) (id : string) (helpful : bool)
    (rst : ReviewStore) : ReviewResponse * ReviewStore :=
  match reviews rst !! id with
  | None => (ReviewFailure 404 "NOT_FOUND", rst)
  | Some review =>
      (ReviewSuccess 200 id None,
       with_reviews rst (<[id := vote helpful now review]> (reviews rst)))
  end.

Definition moderate (isApproved : bool) (moderator : string)
    (note : option string) (now : Z) (r : Review.t) : Review.t :=
  Review.mk (Review.productId r) (Review.productName r) (Review.userId r)
    (Review.userName r) (Review.userEmail r) (Review.rating r)
    (Review.title r) (Review.comment r) (Review.photos r)
    (Review.verifiedPurchase r) (Review.helpfulCount r)
    (Review.unhelpfulCount r) isApproved (Review.createdAt r) now
    (Some moderator) (Some now) note.

(** [router.patch('/:id/moderate', authenticateToken, requireAdmin, ...)]. *)
Definition moderateReview (RV : ReviewValidators) (caller : User.t) (now : Z)
    (id : string) (isApproved : bool) (moderationNote : option string)
    (rst : ReviewStore) : ReviewResponse * ReviewStore :=
  if negb (String.eqb (User.role caller) ADMIN_ROLE) then
    (ReviewFailure 403 "Forbidden", rst)
  else
    match reviews rst !! id with
    | None => (ReviewFailure 404 "NOT_FOUND", rst)
    | Some review =>
        let note := null_if_falsy (trim (base RV) <$> moderationNote) in
        let rst1 := with_reviews rst
                      (<[id := moderate isApproved (User.email caller) note now review]>
                         (reviews rst)) in
        let rst2 := if isApproved
                    then updateProductRating now (Review.productId review) rst1
                    else rst1 in
        (ReviewSuccess 200 id (reviews rst2 !! id), rst2)
    end.

(** The calls a client can make on the review routes. *)
Inductive ReviewCall :=
| CreateReview (caller : User.t) (displayName : option string)
    (newId : string) (body : ReviewBody.t)
| UpdateReview (caller : User.t) (id : string) (edit : ReviewEdit.t)
| DeleteReview (caller : User.t) (id : string)
| MarkHelpful (id : string) (helpful : bool)
| ModerateReview (caller : User.t) (id : string) (isApproved : bool)
    (moderationNote : option string).

Definition review_call (RV : ReviewValidators) (now : Z) (call : ReviewCall)
    (rst : ReviewStore) : ReviewResponse * ReviewStore :=
  match call with
  | CreateReview caller displayName newId body =>
      createReview RV caller displayName now newId body rst
  | UpdateReview caller id edit => updateReview caller now id edit rst
  | DeleteReview caller id => deleteReview caller now id rst
  | MarkHelpful id helpful => markHelpful now id helpful rst
  | ModerateReview caller id isApproved note =>
      moderateReview RV caller now id isApproved note rst
  end.

Fixpoint review_calls (RV : ReviewValidators) (calls : list (Z * ReviewCall))
    (rst : ReviewStore) : ReviewStore :=
  match calls with
  | [] => rst
  | (now, call) :: rest =>
      review_calls RV rest (snd (review_call RV now call rst))
  end.

(** No two reviews are by the same user on the same product. *)
Definition one_review_each (rs : gmap string Review.t) : Prop :=
  forall id1 id2 r1 r2,
    rs !! id1 = Some r1 -> rs !! id2 = Some r2 ->
    Review.productId r1 = Review.productId r2 ->
    Review.userId r1 = Review.userId r2 ->
    id1 = id2.

(** The user has a delivered order with the product on one of its lines. *)
Definition has_delivered (pid uid : string) (st : Store) : Prop :=
  exists id o line,
    orders st !! id = Some o
    /\ Order.userId o = Some uid
    /\ Order.status o = delivered
    /\ line ∈ Order.items o
    /\ OrderItem.productId line = pid.

Definition length_at_most : ReviewValidators :=
  mkReviewValidators no_validation (fun _ => true)
    (fun n s => Nat.leb (String.length s) n).

Definition bob : User.t := User.mk "u2" "bob@example.com" "customer".

Definition delivered_order : Order.t :=
  Order.mk (Some "u1") "ORD-TEST-0003" "ann@example.com" "Ann" "1 Main St"
    "1 Main St" [OrderItem.mk "p1" "Mug" (1001 # 100)%Q 1 None None (1001 # 100)%Q]
    (1001 # 100)%Q (1001 # 1000)%Q (999 # 100)%Q (21001 # 1000)%Q
    delivered paid None "" 50 90 None None None.

Definition review_shop : ReviewStore :=
  mkReviewStore
    (mkStore (products shop) {[ "o3" := delivered_order ]} [] []) ∅ ∅.

Definition mug_review (rating : Z) : ReviewBody.t :=
  ReviewBody.mk "p1" rating "Nice mug" "Keeps the tea warm" [].

(** The number of approved reviews of a product. *)
Definition approved_count (pid : string) (rst : ReviewStore) : Z :=
  Z.of_nat (size (approved_reviews pid (reviews rst))).

(** Every approved review of the product has between one and five stars. *)
Definition stars_in_range (pid : string) (rst : ReviewStore) : Prop :=
  forall id r, reviews rst !! id = Some r ->
               Review.productId r = pid -> Review.isApproved r = true ->
               (1 <= Review.rating r <= 5)%Z.

Definition reviewed_shop : ReviewStore :=
  review_calls length_at_most
    [(10%Z, CreateReview ann None "r1" (mug_review 4));
     (11%Z, CreateReview bob (Some "Bob") "r2" (mug_review 5))]
    review_shop.

Definition approved_shop : ReviewStore :=
  review_calls length_at_most
    [(12%Z, ModerateReview administrator "r1" true None);
     (13%Z, ModerateReview administrator "r2" true (Some "fine"))]
    reviewed_shop.

(** ** [POST /api/coupons/admin] and [DELETE /api/coupons/admin/:id]

    The coupon documents carry audit fields that no route reads
    ([createdBy], [createdAt], [updatedAt], [deactivatedBy]); they are kept
    in [couponAudit], keyed by coupon id, beside the fields of [Coupon.t]. *)

Module CouponAudit.
Record t := mk {
  createdBy : string;
  createdAt : Z;
  updatedAt : Z;
  deactivatedBy : option string
}.
End CouponAudit.

Record CouponAdmin := mkCouponAdmin {
  main : Store;
  couponAudit : gmap string CouponAudit.t
}.

Module CouponBody.
Record t := mk {
  code : string;
  description : string;
  discountType : DiscountType;
  discountValue : Q;
  minOrderAmount : option Q;
  maxDiscountAmount : option Q;
  maxUses : option Z;
  maxUsesPerUser : option Z;
  startDate : option Z;
  expiryDate : option Z;
  applicableCategories : option (list string);
  applicableProducts : option (list string);
  isActive : option bool
}.
End CouponBody.

(** One character of [/^[A-Z0-9-_]+$/]. *)
Definition is_code_char (c : ascii) : bool :=
  let n := nat_of_ascii c in
  ((65 <=? n)%nat && (n <=? 90)%nat) || ((48 <=? n)%nat && (n <=? 57)%nat)
  || Ascii.eqb c "-"%char || Ascii.eqb c "_"%char.

Definition optional {A} (check : A -> bool) (x : option A) : bool :=
  match x with
  | Some a => check a
  | None => true
  end.

Definition valid_coupon_body (V : Validators) (b : CouponBody.t) : bool :=
  notEmpty (trim V (CouponBody.code b))
  && forallb is_code_char (list_ascii_of_string (trim V (CouponBody.code b)))
  && notEmpty (trim V (CouponBody.description b))
  && Qle_bool 0 (CouponBody.discountValue b)
  && optional (Qle_bool 0) (CouponBody.minOrderAmount b)
  && optional (Qle_bool 0) (CouponBody.maxDiscountAmount b)
  && optional (Z.leb 1) (CouponBody.maxUses b)
  && optional (Z.leb 1) (CouponBody.maxUsesPerUser b).

(** [where('code', '==', code).limit(1)] is not empty. *)
Definition code_exists (code : string) (cs : list (string * Coupon.t)) : bool :=
  existsb (fun d => String.eqb (Coupon.code (snd d)) code) cs.

(** Lines 383-400: the document created. *)
Definition new_coupon (V : Validators) (b : CouponBody.t) : Coupon.t :=
  Coupon.mk (toUpperCase (trim V (CouponBody.code b)))
    (trim V (CouponBody.description b)) (CouponBody.discountType b)
    (CouponBody.discountValue b)
    (Some (default 0%Q (CouponBody.minOrderAmount b)))
    (CouponBody.maxDiscountAmount b) (CouponBody.maxUses b)
    (CouponBody.maxUsesPerUser b) (CouponBody.startDate b)
    (CouponBody.expiryDate b)
    (Some (default [] (CouponBody.applicableCategories b)))
    (Some (default [] (CouponBody.applicableProducts b)))
    (default true (CouponBody.isActive b)) 0 None.

(** A new document takes its place in the order of the document ids. *)
Fixpoint insert_by_id (id : string) (c : Coupon.t)
    (cs : list (string * Coupon.t)) : list (string * Coupon.t) :=
  match cs with
  | [] => [(id, c)]
  | (k, c0) :: rest =>
      if String.ltb id k then (id, c) :: (k, c0) :: rest
      else (k, c0) :: insert_by_id id c rest
  end.

Definition with_coupons (st : Store) (cs : list (string * Coupon.t)) : Store :=
  mkStore (products st) (orders st) cs (couponUsage st).

Definition is_percentage (t : DiscountType) : bool :=
  match t with
  | percentage => true
  | _ => false
  end.

(** [router.post('/admin', authenticateToken, requireAdmin, ...)]; [newId]
    is the id that [add()] generates, and [add()] fails on an id in use. *)
Definition createCoupon (V : Validators) (caller : User.t) (now : Z)
    (newId : string) (b : CouponBody.t) (ast : CouponAdmin)
  : CouponAdminResponse * CouponAdmin :=
  if negb (String.eqb (User.role caller) ADMIN_ROLE) then
    (CouponAdminFailure 403 "Forbidden", ast)
  else if negb (valid_coupon_body V b) then
    (CouponAdminFailure 400 "VALIDATION_ERROR", ast)
  else if is_percentage (CouponBody.discountType b)
          && Qltb 100 (CouponBody.discountValue b) then
    (CouponAdminFailure 400 "VALIDATION_ERROR", ast)
  else if code_exists (toUpperCase (trim V (CouponBody.code b)))
            (coupons (main ast)) then
    (CouponAdminFailure 409 "CONFLICT", ast)
  else
    match lookup_coupon newId (coupons (main ast)) with
    | Some _ => (CouponAdminFailure 500 "SERVER_ERROR", ast)
    | None =>
        (CouponCreated newId (new_coupon V b),
         mkCouponAdmin
           (with_coupons (main ast)
              (insert_by_id newId (new_coupon V b) (coupons (main ast))))
           (<[newId := CouponAudit.mk (User.email caller) now now None]>
              (couponAudit ast)))
    end.

Definition deactivate (c : Coupon.t) : Coupon.t :=
  Coupon.mk (Coupon.code c) (Coupon.description c) (Coupon.discountType c)
    (Coupon.discountValue c) (Coupon.minOrderAmount c)
    (Coupon.maxDiscountAmount c) (Coupon.maxUses c) (Coupon.maxUsesPerUser c)
    (Coupon.startDate c) (Coupon.expiryDate c) (Coupon.applicableCategories c)
    (Coupon.applicableProducts c) false (Coupon.usedCount c)
    (Coupon.lastUsedAt c).

Definition deactivated_by (email : string) (now : Z) (a : CouponAudit.t)
  : CouponAudit.t :=
  CouponAudit.mk (CouponAudit.createdBy a) (CouponAudit.createdAt a) now
    (Some email).

(** [couponRef.delete()]. *)
Fixpoint remove_coupon (id : string) (cs : list (string * Coupon.t))
  : list (string * Coupon.t) :=
  match cs with
  | [] => []
  | (k, c) :: rest =>
      if String.eqb k id then rest else (k, c) :: remove_coupon id rest
  end.

(** [router.delete('/admin/:id', authenticateToken, requireAdmin, ...)];
    [permanent] is the query parameter, ['false'] when absent. *)
Definition deleteCoupon (caller : User.t) (now : Z) (id : string)
    (permanent : option string) (ast : CouponAdmin)
  : CouponAdminResponse * CouponAdmin :=
  if negb (String.eqb (User.role caller) ADMIN_ROLE) then
    (CouponAdminFailure 403 "Forbidden", ast)
  else
    match lookup_coupon id (coupons (main ast)) with
    | None => (CouponAdminFailure 404 "NOT_FOUND", ast)
    | Some _ =>
        if String.eqb (default "false" permanent) "true" then
          (CouponDeleted true,
           mkCouponAdmin
             (with_coupons (main ast) (remove_coupon id (coupons (main ast))))
             (delete id (couponAudit ast)))
        else
          (CouponDeleted false,
           mkCouponAdmin
             (with_coupons (main ast)
                (default (coupons (main ast))
                   (update_coupon id deactivate (coupons (main ast)))))
             (alter (deactivated_by (User.email caller) now) id (couponAudit ast)))
    end.

(** The calls that write the coupon collection. *)
Inductive CouponCall :=
| CreateCoupon (caller : User.t) (newId : string) (body : CouponBody.t)
| DeleteCoupon (caller : User.t) (id : string) (permanent : option string)
| ApplyCoupon (caller : User.t) (body : ApplyRequest.t).

Definition coupon_call (V : Validators) (now : Z) (call : CouponCall)
    (ast : CouponAdmin) : CouponAdmin :=
  match call with
  | CreateCoupon caller newId body =>
      snd (createCoupon V caller now newId body ast)
  | DeleteCoupon caller id permanent =>
      snd (deleteCoupon caller now id permanent ast)
  | ApplyCoupon caller body =>
      mkCouponAdmin (snd (applyCoupon caller now body (main ast)))
        (couponAudit ast)
  end.

Fixpoint coupon_calls (V : Validators) (calls : list (Z * CouponCall))
    (ast : CouponAdmin) : CouponAdmin :=
  match calls with
  | [] => ast
  | (now, call) :: rest => coupon_calls V rest (coupon_call V now call ast)
  end.

(** Document ids are distinct and so are the coupon codes. *)
Definition distinct_codes (cs : list (string * Coupon.t)) : Prop :=
  NoDup (map fst cs) /\ NoDup (map (fun d => Coupon.code (snd d)) cs).

Definition coupon_code (d : string * Coupon.t) : string := Coupon.code (snd d).

Definition spring_sale : CouponBody.t :=
  CouponBody.mk "SPRING-10" "Ten percent in spring" percentage 10%Q None
    (Some 20%Q) None None None None None None None.

Definition coupon_office : CouponAdmin := mkCouponAdmin coupon_shop ∅.

(** ** [GET /api/orders/:orderNumber] *)

Inductive OrderView :=
| OrderShown (id : string) (order : Order.t)
| OrderDenied (http : Z) (error : string) (message : string).

(** The first document of a query in the order of the document ids. *)
Definition first_by_id {A} (docs : list (string * A)) : option (string * A) :=
  foldr (fun d acc =>
           match acc with
           | None => Some d
           | Some e => if String.ltb (fst d) (fst e) then Some d else Some e
           end) None docs.

(** [where('orderNumber', '==', orderNumber).limit(1)]. *)
Definition find_order_by_number (orderNumber : string)
    (os : gmap string Order.t) : option (string * Order.t) :=
  first_by_id
    (List.filter (fun d => String.eqb (Order.orderNumber (snd d)) orderNumber)
       (map_to_list os)).

(** [router.get('/:orderNumber', optionalAuth, ...)]. *)
Definition getOrder (caller : option User.t) (orderNumber : string)
    (st : Store) : OrderView :=
  match find_order_by_number orderNumber (orders st) with
  | None => OrderDenied 404 "NotFound" "Order not found"
  | Some (id, order) =>
      match caller with
      | None => OrderDenied 403 "Forbidden" "Access denied"
      | Some u =>
          if negb (String.eqb (User.role u) ADMIN_ROLE)
             && negb (bool_decide (Order.userId order = Some (User.id u)))
          then OrderDenied 403 "Forbidden" "Access denied"
          else OrderShown id order
      end
  end.

(** No order of the store carries the order number. *)
Definition unused_number (orderNumber : string) (st : Store) : Prop :=
  forall id o, orders st !! id = Some o -> Order.orderNumber o <> orderNumber.

Definition signed_in (u : User.t) (id : string) : Env :=
  mkEnv (Some u) 100 "ORD-TEST-0002" id.



(** * Properties *)

(** ** The transaction monad *)

Lemma price_line_batch product item snap batch x batch' :
  price_line product item snap batch = inr (x, batch') ->
  batch' = batch /\ forall snap2 b2, price_line product item snap2 b2 = inr (x, b2).
Proof.
  unfold price_line, tx_ret, tx_throw.
  destruct (Item.variantId item) as [vid|]; [|intros [= <- <-]; auto].
  destruct (Product.variants product) as [vs|]; [|intros [= <- <-]; auto].
  destruct (truthy_string (Some vid) && (0 <? length vs)%nat);
    [|intros [= <- <-]; auto].
  destruct (find_variant vs vid) as [variant|]; [|intros [= <- <-]; auto].
  destruct (Variant.stock variant <? Item.quantity item)%Z; [discriminate|].
  intros [= <- <-]; auto.
Qed.

Lemma update_variant_stock_spec product item snap batch :
  update_variant_stock product item snap batch
  = inr (tt, batch ++ variant_writes product item).
Proof.
  unfold update_variant_stock, variant_writes, tx_ret, tx_write.
  destruct (Item.variantId item) as [vid|]; [|by rewrite app_nil_r].
  destruct (Product.variants product) as [vs|]; [|by rewrite app_nil_r].
  destruct (truthy_string (Some vid)); [|by rewrite app_nil_r].
  destruct (findIndex vs vid); [done|by rewrite app_nil_r].
Qed.

(** What a line that went through has read, checked and buffered. *)
Lemma order_line_inv now item snap batch r batch' :
  order_line now item snap batch = inr (r, batch') ->
  exists product itemPrice variantName,
    batch = []
    /\ products snap !! Item.productId item = Some product
    /\ Product.isActive product = true
    /\ (Item.quantity item <= Product.stockQuantity product)%Z
    /\ price_line product item snap [] = inr ((itemPrice, variantName), [])
    /\ r = ((itemPrice * inject_Z (Item.quantity item))%Q,
            OrderItem.mk (Item.productId item) (Product.name product) itemPrice
              (Item.quantity item) (null_if_falsy (Item.variantId item))
              variantName (itemPrice * inject_Z (Item.quantity item))%Q)
    /\ batch' = IncrementStock (Item.productId item) (- Item.quantity item) now
                :: variant_writes product item.
Proof.
  unfold order_line, tx_bind, tx_get_product.
  destruct batch as [|w ws]; [|discriminate].
  destruct (products snap !! Item.productId item) as [product|] eqn:Hp;
    [|discriminate].
  destruct (Product.isActive product) eqn:Ha; [|discriminate].
  cbn [negb]; cbv beta iota.
  destruct (Product.stockQuantity product <? Item.quantity item)%Z eqn:Hq;
    [discriminate|].
  destruct (price_line product item snap []) as [e|[[itemPrice variantName] b]] eqn:Hl;
    [discriminate|].
  apply price_line_batch in Hl as Hl'. destruct Hl' as [-> _].
  unfold tx_write. rewrite update_variant_stock_spec. unfold tx_ret. simpl.
  intros [= <- <-]. exists product, itemPrice, variantName.
  repeat split; auto. by apply Z.ltb_ge.
Qed.

Lemma order_line_after_write now item snap w ws :
  order_line now item snap (w :: ws) = inl (Error READ_AFTER_WRITE_ERROR_MSG).
Proof. reflexivity. Qed.

(** The loop reads a product after the first line has buffered its stock
    update, so the callback completes for at most one line. *)
Lemma order_lines_inv now items subtotal orderItems snap r batch' :
  order_lines now items subtotal orderItems snap [] = inr (r, batch') ->
  (items = [] /\ r = (subtotal, orderItems) /\ batch' = [])
  \/ exists item line,
       items = [item]
       /\ order_line now item snap [] = inr (line, batch')
       /\ r = ((subtotal + fst line)%Q, orderItems ++ [snd line]).
Proof.
  destruct items as [|item rest]; simpl.
  - unfold tx_ret. intros [= <- <-]. by left.
  - unfold tx_bind at 1.
    destruct (order_line now item snap []) as [e|[line b]] eqn:Hl; [discriminate|].
    apply order_line_inv in Hl as Hinv.
    destruct Hinv as (product & itemPrice & variantName & _ & _ & _ & _ & _ & _ & Hb).
    destruct rest as [|item2 rest]; simpl.
    + unfold tx_ret. intros [= <- <-]. right. exists item, line. auto.
    + subst b. unfold tx_bind at 1. by rewrite order_line_after_write.
Qed.

(** ** Commit of the buffered writes *)

Lemma commit_app st b1 b2 :
  commit st (b1 ++ b2) = commit st b1 ≫= fun st' => commit st' b2.
Proof.
  revert st. induction b1 as [|w b1 IH]; intros st; simpl; [done|].
  destruct (apply_write st w); simpl; auto.
Qed.

Lemma commit_line now item product st :
  products st !! Item.productId item = Some product ->
  commit st (IncrementStock (Item.productId item) (- Item.quantity item) now
             :: variant_writes product item)
  = Some (with_products st
            (<[Item.productId item := reserve now item product]> (products st))).
Proof.
  intros Hp. unfold reserve. simpl. rewrite Hp.
  unfold variant_writes.
  destruct (Item.variantId item) as [vid|]; [|done].
  destruct (Product.variants product) as [vs|]; [|done].
  destruct (truthy_string (Some vid)); [|done].
  destruct (findIndex vs vid) as [i|]; [|done].
  simpl. rewrite lookup_insert_eq. unfold with_products; simpl.
  by rewrite insert_insert_eq.
Qed.

Lemma create_order_tx_single V env req st item product itemPrice variantName :
  Request.items req = [item] ->
  products st !! Item.productId item = Some product ->
  Product.isActive product = true ->
  (Item.quantity item <= Product.stockQuantity product)%Z ->
  price_line product item st [] = inr ((itemPrice, variantName), []) ->
  runTransaction (create_order_tx V env req) st
  = (inr (orderId env, placed_order V env req item product itemPrice variantName),
     placed_store V env req item product itemPrice variantName st).
Proof.
  intros Hitems Hp Ha Hq Hl.
  unfold runTransaction, create_order_tx. rewrite Hitems.
  unfold tx_bind at 1. cbn [order_lines]. unfold tx_bind at 1.
  unfold order_line. unfold tx_bind at 1. cbn [tx_get_product]. rewrite Hp, Ha.
  cbn [negb]; cbv beta iota.
  apply Z.ltb_ge in Hq. rewrite Hq. unfold tx_bind at 1. rewrite Hl.
  unfold tx_bind at 1. cbn [tx_write app]. unfold tx_bind at 1.
  rewrite update_variant_stock_spec. cbn [tx_ret fst snd app]. 
  unfold tx_bind at 1. cbn [tx_write].
  unfold tx_ret. rewrite commit_app.
  rewrite (commit_line _ _ _ _ Hp). reflexivity.
Qed.

Lemma runTransaction_failed {A} (body : Tx A) st e st' :
  runTransaction body st = (inl e, st') -> st' = st.
Proof.
  unfold runTransaction.
  destruct (body st []) as [e0|[a batch]]; [by intros [= _ <-]|].
  destruct (commit st batch); [discriminate|by intros [= _ <-]].
Qed.

Lemma runTransaction_done {A} (body : Tx A) st a st' :
  runTransaction body st = (inr a, st') ->
  exists batch, body st [] = inr (a, batch) /\ commit st batch = Some st'.
Proof.
  unfold runTransaction.
  destruct (body st []) as [e0|[a0 batch]]; [discriminate|].
  destruct (commit st batch) eqn:Hc; [|discriminate].
  intros [= <- <-]. eauto.
Qed.

Lemma create_order_tx_inv V env req st r batch :
  create_order_tx V env req st [] = inr (r, batch) ->
  Request.items req <> [] ->
  exists item product itemPrice variantName,
    Request.items req = [item]
    /\ products st !! Item.productId item = Some product
    /\ Product.isActive product = true
    /\ (Item.quantity item <= Product.stockQuantity product)%Z
    /\ price_line product item st [] = inr ((itemPrice, variantName), []).
Proof.
  unfold create_order_tx. unfold tx_bind at 1.
  destruct (order_lines (now env) (Request.items req) 0%Q [] st [])
    as [e|[res b]] eqn:Hlines; [discriminate|].
  intros _ Hne.
  apply order_lines_inv in Hlines as [(Hnil & _)|(item & line & Hitems & Hline & _)];
    [done|].
  apply order_line_inv in Hline
    as (product & itemPrice & variantName & _ & Hp & Ha & Hq & Hl & _).
  exists item, product, itemPrice, variantName. auto.
Qed.

Lemma valid_order_body_items V req :
  valid_order_body V req = true ->
  Request.items req <> []
  /\ Forall (fun i => (1 <= Item.quantity i)%Z) (Request.items req).
Proof.
  unfold valid_order_body. intros H.
  apply andb_prop in H as [H _]. apply andb_prop in H as [H _].
  apply andb_prop in H as [Hne Hq]. split.
  - apply negb_true_iff, bool_decide_eq_false in Hne. exact Hne.
  - apply Forall_forall. intros i Hi.
    rewrite forallb_forall in Hq. apply Z.leb_le, Hq. by apply list_elem_of_In.
Qed.

(** Every order that is created comes from a one-line request whose product
    was read, found active and in sufficient stock. *)
Lemma placeOrder_success_inv V env req st http msg id oo st' :
  placeOrder V env req st = (Success http msg id oo, st') ->
  exists item product itemPrice variantName,
    Request.items req = [item]
    /\ (1 <= Item.quantity item)%Z
    /\ products st !! Item.productId item = Some product
    /\ Product.isActive product = true
    /\ (Item.quantity item <= Product.stockQuantity product)%Z
    /\ price_line product item st [] = inr ((itemPrice, variantName), [])
    /\ http = 201%Z /\ id = orderId env
    /\ oo = Some (placed_order V env req item product itemPrice variantName)
    /\ st' = placed_store V env req item product itemPrice variantName st.
Proof.
  unfold placeOrder.
  destruct (valid_order_body V req) eqn:Hv; [|discriminate]. cbn [negb].
  apply valid_order_body_items in Hv as [Hne Hq].
  destruct (runTransaction (create_order_tx V env req) st) as [[e|[id0 o]] st0] eqn:Hrun;
    [discriminate|].
  intros [= <- <- <- <- <-].
  apply runTransaction_done in Hrun as Hb. destruct Hb as (batch & Hbody & _).
  apply create_order_tx_inv in Hbody
    as (item & product & itemPrice & variantName & Hitems & Hp & Ha & Hs & Hl); [|done].
  rewrite (create_order_tx_single V env req st item product itemPrice variantName)
    in Hrun by done.
  injection Hrun as <- <- <-.
  exists item, product, itemPrice, variantName.
  rewrite Hitems in Hq. apply Forall_inv in Hq. by repeat split.
Qed.

Lemma placeOrder_failure_inv V env req st :
  is_failure (fst (placeOrder V env req st)) = true ->
  snd (placeOrder V env req st) = st.
Proof.
  unfold placeOrder. destruct (negb (valid_order_body V req)); [done|].
  destruct (runTransaction (create_order_tx V env req) st) as [[e|[id o]] st'] eqn:Hrun;
    simpl; [|discriminate].
  intros _. by apply runTransaction_failed in Hrun.
Qed.

Lemma placeOrder_single V env req st item product itemPrice variantName :
  valid_order_body V req = true ->
  Request.items req = [item] ->
  products st !! Item.productId item = Some product ->
  Product.isActive product = true ->
  (Item.quantity item <= Product.stockQuantity product)%Z ->
  price_line product item st [] = inr ((itemPrice, variantName), []) ->
  placeOrder V env req st
  = (Success 201 "Order created successfully" (orderId env)
       (Some (placed_order V env req item product itemPrice variantName)),
     placed_store V env req item product itemPrice variantName st).
Proof.
  intros Hv Hitems Hp Ha Hq Hl. unfold placeOrder. rewrite Hv. cbn [negb].
  by rewrite (create_order_tx_single V env req st item product itemPrice variantName).
Qed.

(** A request with two lines or more is never served: the second
    [transaction.get] comes after the first line's [transaction.update]. *)
Lemma placeOrder_several_lines V env req st item1 item2 rest :
  Request.items req = item1 :: item2 :: rest ->
  is_failure (fst (placeOrder V env req st)) = true
  /\ snd (placeOrder V env req st) = st.
Proof.
  intros Hitems.
  assert (is_failure (fst (placeOrder V env req st)) = true) as Hf.
  { destruct (placeOrder V env req st) as [[http msg id oo|http err msg] st'] eqn:Hcall;
      [|done].
    apply placeOrder_success_inv in Hcall as (item & _ & _ & _ & Hone & _).
    congruence. }
  split; [done|by apply placeOrder_failure_inv].
Qed.

Example two_line_order_is_aborted :
  placeOrder no_validation (guest "o1")
    (cart [Item.mk "p1" 1 None None; Item.mk "p2" 1 None None]) shop
  = (Failure 500 "ServerError" READ_AFTER_WRITE_ERROR_MSG, shop).
Proof. reflexivity. Qed.

(** ** Sequences of calls *)

Lemma reserve_stock now item product :
  Product.stockQuantity (reserve now item product)
  = (Product.stockQuantity product - Item.quantity item)%Z.
Proof.
  unfold reserve. destruct (variant_writes product item) as [|[] ?]; reflexivity.
Qed.

Lemma placeOrder_stock V env req st pid S :
  stock_of pid st = Some S -> (0 <= S)%Z ->
  stock_of pid (snd (placeOrder V env req st))
  = Some (S - decrement_of pid (fst (placeOrder V env req st)))%Z
  /\ (0 <= decrement_of pid (fst (placeOrder V env req st)) <= S)%Z.
Proof.
  intros HS Hpos.
  destruct (placeOrder V env req st) as [r st'] eqn:Hcall.
  destruct r as [http msg id oo|http err msg].
  - apply placeOrder_success_inv in Hcall
      as (item & product & itemPrice & variantName & _ & Hq1 & Hp & _ & Hq & _ & _ & _ & -> & ->).
    simpl. unfold stock_of, placed_store; simpl.
    destruct (String.eqb_spec (Item.productId item) pid) as [<-|Hne].
    + rewrite lookup_insert_eq; simpl. rewrite reserve_stock.
      unfold stock_of in HS. rewrite Hp in HS. injection HS as <-.
      split; [f_equal; lia|lia].
    + rewrite lookup_insert_ne by done. fold (stock_of pid st). rewrite HS.
      split; [f_equal; lia|lia].
  - assert (st' = st) as ->.
    { change st' with (snd (Failure http err msg, st')). rewrite <- Hcall.
      apply placeOrder_failure_inv. by rewrite Hcall. }
    simpl. split; [rewrite HS; f_equal; lia|lia].
Qed.

(** C1.  An order is created only if every line asks for at most the
    stockQuantity that the transaction read for it; hence, along any
    sequence of PlaceOrder calls against a product whose stock starts at
    [S >= 0], the stock equals [S] minus the decrements of the successful
    calls, these sum to at most [S], and the stock is never negative. *)
Theorem place_order_stock_never_negative :
  (forall V env req st http msg id oo st',
      placeOrder V env req st = (Success http msg id oo, st') ->
      Forall (fun item =>
                exists product,
                  products st !! Item.productId item = Some product
                  /\ (Item.quantity item <= Product.stockQuantity product)%Z)
             (Request.items req))
  /\ (forall V calls st pid S,
         stock_of pid st = Some S -> (0 <= S)%Z ->
         stock_of pid (snd (placeOrders V calls st))
         = Some (S - total_decrement pid (fst (placeOrders V calls st)))%Z
         /\ (0 <= total_decrement pid (fst (placeOrders V calls st)) <= S)%Z
         /\ (0 <= S - total_decrement pid (fst (placeOrders V calls st)))%Z).
Proof.
  split.
  - intros V env req st http msg id oo st' Hcall.
    apply placeOrder_success_inv in Hcall
      as (item & product & _ & _ & -> & _ & Hp & _ & Hq & _).
    constructor; [eauto|constructor].
  - intros V calls. induction calls as [|[env req] calls IH]; intros st pid S HS Hpos.
    + simpl. rewrite HS. split; [f_equal; lia|lia].
    + simpl.
      destruct (placeOrder_stock V env req st pid S HS Hpos) as [H1 H2].
      destruct (IH _ _ _ H1 ltac:(lia)) as (IH1 & IH2 & IH3).
      rewrite IH1. split; [f_equal; lia|lia].
Qed.

(** C2.  A PlaceOrder call that fails leaves the store as it was: products
    and their variants, orders, coupons and coupon usage.  A line whose
    product is missing, inactive or short of stock makes the call fail,
    wherever it stands in the request. *)
Theorem failed_place_order_changes_nothing V env req st :
  (is_failure (fst (placeOrder V env req st)) = true ->
   snd (placeOrder V env req st) = st)
  /\ (forall item,
         item ∈ Request.items req -> line_available st item = false ->
         is_failure (fst (placeOrder V env req st)) = true
         /\ snd (placeOrder V env req st) = st).
Proof.
  split; [apply placeOrder_failure_inv|].
  intros item Hin Hbad.
  assert (is_failure (fst (placeOrder V env req st)) = true) as Hf.
  { destruct (placeOrder V env req st) as [[http msg id oo|http err msg] st'] eqn:Hcall;
      [|done].
    apply placeOrder_success_inv in Hcall
      as (item' & product & itemPrice & variantName & Hitems & _ & Hp & Ha & Hq & Hl & _).
    rewrite Hitems in Hin. apply list_elem_of_singleton in Hin as ->.
    unfold line_available in Hbad. rewrite Hp, Ha, Hl in Hbad.
    apply Z.leb_le in Hq. by rewrite Hq in Hbad. }
  split; [done|by apply placeOrder_failure_inv].
Qed.

Lemma failed_place_order_changes_nothing_witness :
  snd (placeOrder no_validation (guest "o1")
         (cart [Item.mk "p1" 1 None None; Item.mk "p2" 7 None None]) shop)
  = shop.
Proof.
  apply (proj2 (failed_place_order_changes_nothing no_validation (guest "o1")
                  (cart [Item.mk "p1" 1 None None; Item.mk "p2" 7 None None]) shop)
           (Item.mk "p2" 7 None None)).
  - apply list_elem_of_In. simpl. auto.
  - vm_compute. reflexivity.
Defined.

Lemma place_order_stock_never_negative_witness :
  let calls := [(guest "o1", cart [Item.mk "p2" 1 None None]);
                (guest "o2", cart [Item.mk "p2" 1 None None])] in
  stock_of "p2" (snd (placeOrders no_validation calls shop))
  = Some (1 - total_decrement "p2" (fst (placeOrders no_validation calls shop)))%Z
  /\ (0 <= total_decrement "p2" (fst (placeOrders no_validation calls shop)) <= 1)%Z
  /\ (0 <= 1 - total_decrement "p2" (fst (placeOrders no_validation calls shop)))%Z.
Proof.
  intros calls.
  apply (proj2 place_order_stock_never_negative no_validation calls shop "p2" 1%Z).
  - vm_compute. reflexivity.
  - lia.
Defined.

(** Stock 1 and two requests for one unit: the first is served, the second
    is refused, the stock ends at 0. *)
Example last_unit_is_sold_once :
  let calls := [(guest "o1", cart [Item.mk "p2" 1 None None]);
                (guest "o2", cart [Item.mk "p2" 1 None None])] in
  map is_failure (fst (placeOrders no_validation calls shop)) = [false; true]
  /\ stock_of "p2" (snd (placeOrders no_validation calls shop)) = Some 0%Z.
Proof. vm_compute. auto. Qed.

(** ** How a refused order is reported *)






(** ** Totals *)





(** ** Prices sent by the client *)








(** ** Variant ids that match no variant *)

Lemma find_variant_none vs vid :
  (forall v, v ∈ vs -> Variant.id v <> vid) -> find_variant vs vid = None.
Proof.
  unfold find_variant. induction vs as [|v vs IH]; intros H; [done|]. simpl.
  destruct (String.eqb_spec (Variant.id v) vid) as [Heq|_].
  - exfalso. apply (H v); [left|done].
  - apply IH. intros v' Hv'. apply H. by right.
Qed.

Lemma findIndex_none vs vid :
  (forall v, v ∈ vs -> Variant.id v <> vid) -> findIndex vs vid = None.
Proof.
  induction vs as [|v vs IH]; intros H; [done|]. simpl.
  destruct (String.eqb_spec (Variant.id v) vid) as [Heq|_].
  - exfalso. apply (H v); [left|done].
  - rewrite IH; [done|]. intros v' Hv'. apply H. by right.
Qed.

Lemma price_line_unmatched product item vid snap batch :
  Item.variantId item = Some vid ->
  (forall v, v ∈ default [] (Product.variants product) -> Variant.id v <> vid) ->
  price_line product item snap batch = inr ((Product.price product, None), batch).
Proof.
  intros Hv Hnone. unfold price_line. rewrite Hv.
  destruct (Product.variants product) as [vs|]; [|done].
  destruct (truthy_string (Some vid) && (0 <? length vs)%nat); [|done].
  by rewrite (find_variant_none vs vid Hnone).
Qed.

Lemma variant_writes_unmatched product item vid :
  Item.variantId item = Some vid ->
  (forall v, v ∈ default [] (Product.variants product) -> Variant.id v <> vid) ->
  variant_writes product item = [].
Proof.
  intros Hv Hnone. unfold variant_writes. rewrite Hv.
  destruct (Product.variants product) as [vs|]; [|done].
  destruct (truthy_string (Some vid)); [|done].
  by rewrite (findIndex_none vs vid Hnone).
Qed.

(** C10.  A line whose variantId matches no variant of its product is
    handled as a line on the base product.  The loop body charges the
    product's price, buffers the product-level decrement only and records
    no variant name; and a request made of that one line is accepted, its
    order holding that line, the product's stockQuantity going down by the
    quantity and its variants staying as they were. *)
Theorem unmatched_variant_falls_back_to_product V env req st item vid product :
  valid_order_body V req = true ->
  Request.items req = [item] ->
  Item.variantId item = Some vid ->
  products st !! Item.productId item = Some product ->
  Product.isActive product = true ->
  (Item.quantity item <= Product.stockQuantity product)%Z ->
  (forall v, v ∈ default [] (Product.variants product) -> Variant.id v <> vid) ->
  let line := line_item item product (Product.price product) None in
  let order := build_order V env req
                 (0 + Product.price product * inject_Z (Item.quantity item))%Q
                 [line] in
  order_line (now env) item st []
  = inr ((OrderItem.subtotal line, line),
         [IncrementStock (Item.productId item) (- Item.quantity item) (now env)])
  /\ OrderItem.variantName line = None
  /\ OrderItem.productPrice line = Product.price product
  /\ placeOrder V env req st
     = (Success 201 "Order created successfully" (orderId env) (Some order),
        mkStore
          (<[Item.productId item :=
               set_stock product
                 (Product.stockQuantity product - Item.quantity item) (now env)]>
             (products st))
          (<[orderId env := order]> (orders st))
          (coupons st) (couponUsage st)).
Proof.
  intros Hv Hitems Hvid Hp Ha Hq Hnone line order.
  pose proof (price_line_unmatched product item vid st [] Hvid Hnone) as Hl.
  pose proof (variant_writes_unmatched product item vid Hvid Hnone) as Hw.
  split; [|split; [done|split; [done|]]].
  - unfold order_line. unfold tx_bind at 1. cbn [tx_get_product]. rewrite Hp, Ha.
    cbn [negb]; cbv beta iota.
    apply Z.ltb_ge in Hq. rewrite Hq. unfold tx_bind at 1. rewrite Hl.
    unfold tx_bind at 1. cbn [tx_write app]. unfold tx_bind at 1.
    rewrite update_variant_stock_spec, Hw. reflexivity.
  - rewrite (placeOrder_single V env req st item product (Product.price product) None)
      by done.
    unfold placed_store, reserve. rewrite Hw. reflexivity.
Qed.

Lemma unmatched_variant_falls_back_to_product_witness :
  stock_of "p1" (snd (placeOrder no_validation (guest "o1")
                        (cart [Item.mk "p1" 2 (Some "v9") None]) shop))
  = Some 3%Z.
Proof.
  destruct (unmatched_variant_falls_back_to_product no_validation (guest "o1")
              (cart [Item.mk "p1" 2 (Some "v9") None]) shop
              (Item.mk "p1" 2 (Some "v9") None) "v9" mug)
    as (_ & _ & _ & Hcall).
  - reflexivity.
  - reflexivity.
  - reflexivity.
  - vm_compute. reflexivity.
  - reflexivity.
  - simpl. lia.
  - intros v Hv. apply list_elem_of_In in Hv. simpl in Hv.
    destruct Hv as [<-|[<-|[]]]; discriminate.
  - rewrite Hcall. vm_compute. reflexivity.
Defined.

(** ** Cancellation *)

Lemma refund_stock_spec now items snap batch :
  refund_stock now items snap batch = inr (tt, batch ++ refund_writes now items).
Proof.
  revert batch. induction items as [|i items IH]; intros batch; simpl.
  - unfold tx_ret. by rewrite app_nil_r.
  - unfold tx_bind, tx_write. rewrite IH. by rewrite <- app_assoc.
Qed.

Lemma cancel_order_tx_spec now caller id reason order snap :
  cancel_order_tx now caller id reason order snap []
  = inr (tt, refund_writes now (Order.items order)
             ++ [cancel_write now caller id reason]).
Proof.
  unfold cancel_order_tx, tx_bind. rewrite refund_stock_spec. reflexivity.
Qed.

Lemma commit_refunds now items st st1 :
  commit st (refund_writes now items) = Some st1 ->
  orders st1 = orders st /\ coupons st1 = coupons st
  /\ couponUsage st1 = couponUsage st.
Proof.
  revert st. induction items as [|i items IH]; intros st; simpl.
  - by intros [= <-].
  - destruct (products st !! OrderItem.productId i) as [p|]; [|discriminate].
    intros H. apply IH in H. exact H.
Qed.

Lemma may_cancel_check caller order :
  negb (String.eqb (User.role caller) ADMIN_ROLE)
  && negb (bool_decide (Order.userId order = Some (User.id caller))) = false
  <-> may_cancel caller order.
Proof.
  unfold may_cancel. rewrite andb_false_iff, !negb_false_iff.
  rewrite String.eqb_eq, bool_decide_eq_true. reflexivity.
Qed.

Lemma cancelOrder_success_inv caller now id reason st http msg id' oo st' :
  cancelOrder caller now id reason st = (Success http msg id' oo, st') ->
  exists order st1,
    orders st !! id = Some order
    /\ may_cancel caller order
    /\ cancellable (Order.status order) = true
    /\ commit st (refund_writes now (Order.items order)) = Some st1
    /\ st' = with_orders st1
               (<[id := set_cancelled order (or_string reason "Cancelled by customer")
                          (User.id caller) now]> (orders st)).
Proof.
  unfold cancelOrder.
  destruct (orders st !! id) as [order|] eqn:Ho; [|discriminate].
  destruct (negb (String.eqb (User.role caller) ADMIN_ROLE)
            && negb (bool_decide (Order.userId order = Some (User.id caller))))
    eqn:Hauth; [discriminate|].
  destruct (cancellable (Order.status order)) eqn:Hc; [|discriminate]. cbn [negb].
  destruct (runTransaction (cancel_order_tx now caller id reason order) st)
    as [[e|[]] st0] eqn:Hrun; [discriminate|].
  intros [= _ _ _ _ <-].
  apply runTransaction_done in Hrun as (batch & Hbody & Hcommit).
  rewrite cancel_order_tx_spec in Hbody. injection Hbody as <-.
  rewrite commit_app in Hcommit.
  destruct (commit st (refund_writes now (Order.items order))) as [st1|] eqn:Hr;
    [|discriminate].
  apply commit_refunds in Hr as Hsame. destruct Hsame as (Ho1 & _).
  simpl in Hcommit. rewrite Ho1, Ho in Hcommit. injection Hcommit as <-.
  exists order, st1. repeat split; auto.
  by apply may_cancel_check.
Qed.

Lemma cancelOrder_not_cancellable caller now id reason st order :
  orders st !! id = Some order ->
  cancellable (Order.status order) = false ->
  snd (cancelOrder caller now id reason st) = st
  /\ is_failure (fst (cancelOrder caller now id reason st)) = true
  /\ (may_cancel caller order ->
      fst (cancelOrder caller now id reason st)
      = Failure 400 "INVALID_STATUS"
          ("Cannot cancel order with status: " +:+ status_name (Order.status order))).
Proof.
  intros Ho Hc. unfold cancelOrder. rewrite Ho, Hc. cbn [negb].
  destruct (negb (String.eqb (User.role caller) ADMIN_ROLE)
            && negb (bool_decide (Order.userId order = Some (User.id caller))))
    eqn:Hauth.
  - repeat split. intros Hmay. apply may_cancel_check in Hmay. congruence.
  - repeat split.
Qed.

(** C5.  CancelOrder succeeds only on an order that is pending or
    processing, and then leaves it cancelled.  On an order that is shipped,
    delivered or cancelled it fails and writes nothing, with status 400 and
    the code INVALID_STATUS when the caller is the owner or an
    administrator.  So cancelling twice is refused the second time and
    restocks once. *)
Theorem cancel_only_pending_or_processing caller now id reason st :
  (forall http msg id' oo st',
      cancelOrder caller now id reason st = (Success http msg id' oo, st') ->
      exists order order',
        orders st !! id = Some order
        /\ (Order.status order = pending \/ Order.status order = processing)
        /\ orders st' !! id = Some order'
        /\ Order.status order' = cancelled
        /\ forall caller2 now2 reason2,
             snd (cancelOrder caller2 now2 id reason2 st') = st'
             /\ is_failure (fst (cancelOrder caller2 now2 id reason2 st')) = true)
  /\ (forall order,
         orders st !! id = Some order ->
         Order.status order = shipped \/ Order.status order = delivered
         \/ Order.status order = cancelled ->
         snd (cancelOrder caller now id reason st) = st
         /\ is_failure (fst (cancelOrder caller now id reason st)) = true
         /\ (may_cancel caller order ->
             fst (cancelOrder caller now id reason st)
             = Failure 400 "INVALID_STATUS"
                 ("Cannot cancel order with status: "
                  +:+ status_name (Order.status order)))).
Proof.
  split.
  - intros http msg id' oo st' Hcall.
    apply cancelOrder_success_inv in Hcall
      as (order & st1 & Ho & _ & Hc & _ & ->).
    exists order, (set_cancelled order (or_string reason "Cancelled by customer")
                     (User.id caller) now).
    split; [done|]. split; [by destruct (Order.status order); auto|].
    assert (orders (with_orders st1
              (<[id := set_cancelled order (or_string reason "Cancelled by customer")
                         (User.id caller) now]> (orders st))) !! id
            = Some (set_cancelled order (or_string reason "Cancelled by customer")
                      (User.id caller) now)) as Hl
      by (simpl; apply lookup_insert_eq).
    split; [exact Hl|]. split; [done|].
    intros caller2 now2 reason2.
    destruct (cancelOrder_not_cancellable caller2 now2 id reason2 _ _ Hl eq_refl)
      as (H1 & H2 & _).
    by split.
  - intros order Ho Hs. apply cancelOrder_not_cancellable; [done|].
    destruct Hs as [->|[->| ->]]; reflexivity.
Qed.

Lemma cancel_only_pending_or_processing_witness :
  snd (cancelOrder administrator 200 "o9" None shop_with_shipped_order)
  = shop_with_shipped_order
  /\ is_failure (fst (cancelOrder administrator 200 "o9" None shop_with_shipped_order))
     = true
  /\ (may_cancel administrator shipped_order ->
      fst (cancelOrder administrator 200 "o9" None shop_with_shipped_order)
      = Failure 400 "INVALID_STATUS" "Cannot cancel order with status: shipped").
Proof.
  apply (proj2 (cancel_only_pending_or_processing administrator 200 "o9" None
                  shop_with_shipped_order) shipped_order).
  - vm_compute. reflexivity.
  - left. reflexivity.
Defined.

(** ** Placing, then cancelling *)

(** Cancelling an order right after it was placed puts every product's
    stockQuantity back; the products' variants are left as the order
    placement wrote them. *)
Lemma place_then_cancel V env req st http msg id o st' caller now2 reason :
  placeOrder V env req st = (Success http msg id (Some o), st') ->
  may_cancel caller o ->
  exists st'',
    cancelOrder caller now2 id reason st'
    = (Success 200 "Order cancelled successfully" id
         (Some (set_cancelled o (or_string reason "Cancelled by customer")
                  (User.id caller) now2)), st'')
    /\ (forall pid, stock_of pid st'' = stock_of pid st)
    /\ (forall pid, Product.variants <$> products st'' !! pid
                    = Product.variants <$> products st' !! pid).
Proof.
  intros Hcall Hmay.
  apply placeOrder_success_inv in Hcall
    as (item & product & itemPrice & variantName & _ & _ & Hp & _ & _ & _ & _ & -> & Ho & ->).
  injection Ho as ->.
  set (o := placed_order V env req item product itemPrice variantName) in *.
  unfold cancelOrder.
  assert (orders (placed_store V env req item product itemPrice variantName st)
            !! orderId env = Some o) as Hl by (simpl; apply lookup_insert_eq).
  rewrite Hl. apply may_cancel_check in Hmay. rewrite Hmay.
  change (cancellable (Order.status o)) with true. cbn [negb].
  unfold runTransaction. rewrite cancel_order_tx_spec.
  change (Order.items o) with [line_item item product itemPrice variantName].
  cbn [refund_writes map app commit apply_write line_item
       OrderItem.productId OrderItem.quantity cancel_write].
  cbn [placed_store products]. rewrite lookup_insert_eq.
  cbn [with_products orders products commit apply_write with_orders].
  rewrite Hl. cbv beta iota.
  eexists. split; [unfold with_orders at 1; cbn [orders]; rewrite lookup_insert_eq; reflexivity|].
  split; intros pid; unfold stock_of, with_orders, with_products;
    cbn [products coupons couponUsage orders].
  - destruct (decide (Item.productId item = pid)) as [<-|Hne].
    + rewrite lookup_insert_eq, Hp. cbn. rewrite reserve_stock. f_equal. lia.
    + by rewrite !lookup_insert_ne.
  - destruct (decide (Item.productId item = pid)) as [<-|Hne].
    + by rewrite !lookup_insert_eq.
    + by rewrite !lookup_insert_ne.
Qed.

(** C4 on a line with a variant: two red mugs are ordered and the order is
    cancelled.  The product's stockQuantity goes 5, 3, 5; the stock of the
    variant goes 3, 1 and stays at 1. *)
Lemma cancel_leaves_variant_stock_reduced :
  let placed := placeOrder no_validation (guest "o1")
                  (cart [Item.mk "p1" 2 (Some "v1") None]) shop in
  let undone := cancelOrder administrator 200 "o1" None (snd placed) in
  is_failure (fst placed) = false
  /\ is_failure (fst undone) = false
  /\ stock_of "p1" shop = Some 5%Z
  /\ stock_of "p1" (snd placed) = Some 3%Z
  /\ stock_of "p1" (snd undone) = Some 5%Z
  /\ variant_stock_of "p1" "v1" shop = Some 3%Z
  /\ variant_stock_of "p1" "v1" (snd placed) = Some 1%Z
  /\ variant_stock_of "p1" "v1" (snd undone) = Some 1%Z.
Proof. vm_compute. repeat split. Qed.

(** ** Redeeming a coupon *)

Lemma update_coupon_found id f cs c :
  lookup_coupon id cs = Some c ->
  exists cs', update_coupon id f cs = Some cs'
              /\ lookup_coupon id cs' = Some (f c).
Proof.
  unfold lookup_coupon. induction cs as [|[k c0] cs IH]; simpl; [discriminate|].
  destruct (String.eqb k id) eqn:Hk.
  - intros [= <-]. eexists. split; [reflexivity|]. simpl. by rewrite Hk.
  - intros H. destruct (IH H) as (cs' & -> & Hl). eexists. split; [reflexivity|].
    simpl. by rewrite Hk.
Qed.

Lemma applyCoupon_found caller now req st c :
  valid_apply_body req = true ->
  lookup_coupon (ApplyRequest.couponId req) (coupons st) = Some c ->
  exists cs',
    applyCoupon caller now req st
    = (CouponApplied,
       mkStore (products st) (orders st) cs'
         (couponUsage st ++
            [CouponUsage.mk (ApplyRequest.couponId req) (ApplyRequest.orderId req)
               (User.id caller) (User.email caller)
               (ApplyRequest.discountAmount req) now]))
    /\ lookup_coupon (ApplyRequest.couponId req) cs' = Some (record_use now c).
Proof.
  intros Hv Hc. unfold applyCoupon. rewrite Hv. cbn [negb coupons].
  destruct (update_coupon_found _ (record_use now) _ _ Hc) as (cs' & -> & Hl).
  exists cs'. by split.
Qed.

(** C3, as the code has it.  The apply route reads no limit and runs no
    transaction: every well-formed redemption of an existing coupon
    succeeds, appends its CouponUsage record and adds one to usedCount,
    whatever maxUses says.  After N redemptions usedCount has grown by N
    and N usage records have been appended. *)
Theorem apply_coupon_counts_every_redemption calls st id n :
  used_count id st = Some n ->
  Forall (fun call : ApplyCall =>
            valid_apply_body (snd call) = true
            /\ ApplyRequest.couponId (snd call) = id) calls ->
  fst (applyCoupons calls st) = map (fun _ => CouponApplied) calls
  /\ used_count id (snd (applyCoupons calls st))
     = Some (n + Z.of_nat (length calls))%Z
  /\ max_uses id (snd (applyCoupons calls st)) = max_uses id st
  /\ length (couponUsage (snd (applyCoupons calls st)))
     = (length (couponUsage st) + length calls)%nat.
Proof.
  revert st n. induction calls as [|[[caller now] req] calls IH]; intros st n Hn Hall.
  - simpl. rewrite Hn. repeat split; [f_equal; lia|lia].
  - apply Forall_cons in Hall as [[Hv Hid] Hall]. simpl in Hv, Hid.
    unfold used_count in Hn.
    destruct (lookup_coupon id (coupons st)) as [c|] eqn:Hc; [|discriminate].
    injection Hn as <-. rewrite <- Hid in Hc.
    destruct (applyCoupon_found caller now req st c Hv Hc) as (cs' & Hcall & Hl).
    cbn [applyCoupons]. rewrite Hcall. cbn [fst snd].
    rewrite Hid in Hl.
    destruct (IH (mkStore (products st) (orders st) cs'
                    (couponUsage st ++
                       [CouponUsage.mk (ApplyRequest.couponId req)
                          (ApplyRequest.orderId req) (User.id caller)
                          (User.email caller) (ApplyRequest.discountAmount req) now]))
                 (Coupon.usedCount c + 1)%Z)
      as (IH1 & IH2 & IH3 & IH4); [by unfold used_count; simpl; rewrite Hl|done|].
    rewrite IH1, IH2, IH3, IH4. rewrite Hid in Hc.
    unfold max_uses. cbn [coupons couponUsage]. rewrite Hl, Hc.
    rewrite length_app. cbn [map length].
    repeat split; [f_equal; lia|lia].
Qed.

Lemma apply_coupon_counts_every_redemption_witness :
  let calls := [redeem_by "u1"; redeem_by "u2"] in
  fst (applyCoupons calls coupon_shop) = map (fun _ => CouponApplied) calls
  /\ used_count "c2" (snd (applyCoupons calls coupon_shop))
     = Some (0 + Z.of_nat (length calls))%Z
  /\ max_uses "c2" (snd (applyCoupons calls coupon_shop)) = max_uses "c2" coupon_shop
  /\ length (couponUsage (snd (applyCoupons calls coupon_shop)))
     = (length (couponUsage coupon_shop) + length calls)%nat.
Proof.
  intros calls.
  apply (apply_coupon_counts_every_redemption calls coupon_shop "c2" 0%Z).
  - reflexivity.
  - repeat constructor.
Defined.

(** A coupon with maxUses = 1 redeemed by three users: three successes, no
    COUPON_LIMIT_REACHED, and usedCount ends at 3. *)
Lemma single_use_coupon_redeemed_three_times :
  let calls := [redeem_by "u1"; redeem_by "u2"; redeem_by "u3"] in
  max_uses "c2" coupon_shop = Some (Some 1%Z)
  /\ fst (applyCoupons calls coupon_shop)
     = [CouponApplied; CouponApplied; CouponApplied]
  /\ ~ In (CouponFailure 400 "COUPON_LIMIT_REACHED")
          (fst (applyCoupons calls coupon_shop))
  /\ used_count "c2" (snd (applyCoupons calls coupon_shop)) = Some 3%Z
  /\ ~ (forall n m, used_count "c2" (snd (applyCoupons calls coupon_shop)) = Some n ->
                    max_uses "c2" (snd (applyCoupons calls coupon_shop)) = Some (Some m) ->
                    (n <= m)%Z).
Proof.
  intros calls.
  assert (fst (applyCoupons calls coupon_shop)
          = [CouponApplied; CouponApplied; CouponApplied]) as Hr by reflexivity.
  assert (used_count "c2" (snd (applyCoupons calls coupon_shop)) = Some 3%Z)
    as Hn by reflexivity.
  assert (max_uses "c2" (snd (applyCoupons calls coupon_shop)) = Some (Some 1%Z))
    as Hm by reflexivity.
  split; [reflexivity|]. split; [exact Hr|]. split.
  - rewrite Hr. simpl. intros [H|[H|[H|[]]]]; discriminate.
  - split; [exact Hn|]. intros H. specialize (H 3%Z 1%Z Hn Hm). lia.
Qed.

(** ** The order of the coupon checks *)



(** * Further properties of the order routes *)

(** ** Which requests are served *)




(** X2.  The order that PlaceOrder returns is the document it stores under
    the generated id, pending and with pending payment, owned by the
    authenticated caller if there is one.  Every other order, every product
    that is not on the order, and the coupon collections stay as they
    were. *)
Theorem placed_order_is_stored V env req st http msg id o st' :
  placeOrder V env req st = (Success http msg id (Some o), st') ->
  id = orderId env
  /\ orders st' !! id = Some o
  /\ Order.status o = pending
  /\ Order.paymentStatus o = pay_pending
  /\ Order.userId o = User.id <$> user env
  /\ (forall id2, id2 <> id -> orders st' !! id2 = orders st !! id2)
  /\ (forall pid, ordered_quantity pid (Order.items o) = 0%Z ->
                  products st' !! pid = products st !! pid)
  /\ coupons st' = coupons st
  /\ couponUsage st' = couponUsage st.
Proof.
  intros Hcall.
  apply placeOrder_success_inv in Hcall
    as (item & product & itemPrice & variantName & _ & Hq1 & _ & _ & _ & _ & _ & -> & Ho & ->).
  injection Ho as ->. cbn [placed_store orders products coupons couponUsage].
  split; [done|]. split; [apply lookup_insert_eq|].
  split; [done|]. split; [done|]. split; [done|].
  split; [by intros id2 Hne; rewrite lookup_insert_ne|].
  split; [|done].
  intros pid. cbn [placed_order build_order Order.items ordered_quantity
                   line_item OrderItem.productId OrderItem.quantity].
  destruct (String.eqb_spec (Item.productId item) pid) as [->|Hne]; [lia|].
  intros _. by rewrite lookup_insert_ne.
Qed.

Lemma placed_order_is_stored_witness :
  exists o st',
    placeOrder no_validation (guest "o1") (cart [Item.mk "p2" 1 None None]) shop
    = (Success 201 "Order created successfully" "o1" (Some o), st')
    /\ orders st' !! "o1" = Some o
    /\ products st' !! "p1" = products shop !! "p1".
Proof.
  destruct (placeOrder no_validation (guest "o1")
              (cart [Item.mk "p2" 1 None None]) shop) as [r st'] eqn:Hcall.
  assert (exists o, r = Success 201 "Order created successfully" "o1" (Some o))
    as [o ->].
  { vm_compute in Hcall. injection Hcall as <- _. eexists. reflexivity. }
  exists o, st'. split; [reflexivity|].
  destruct (placed_order_is_stored no_validation (guest "o1")
              (cart [Item.mk "p2" 1 None None]) shop _ _ _ _ _ Hcall)
    as (_ & Hstored & _ & _ & _ & _ & Hframe & _).
  split; [exact Hstored|]. apply Hframe.
  vm_compute in Hcall. injection Hcall as <- _. reflexivity.
Defined.

(** ** Lines that select a variant *)



Lemma truthy_string_nonempty s : s <> "" -> truthy_string (Some s) = true.
Proof.
  intros Hs. simpl. destruct (String.eqb_spec s ""); [done|reflexivity].
Qed.



(** ** What a cancellation writes *)

Lemma stock_of_is_Some pid st :
  is_Some (stock_of pid st) <-> is_Some (products st !! pid).
Proof. unfold stock_of. apply fmap_is_Some. Qed.

Lemma apply_increment_stock st pid q now st1 :
  apply_write st (IncrementStock pid q now) = Some st1 ->
  (forall pid', stock_of pid' st1
                = restocked (if String.eqb pid pid' then q else 0) (stock_of pid' st))
  /\ (forall pid', variants_of pid' st1 = variants_of pid' st)
  /\ orders st1 = orders st /\ coupons st1 = coupons st
  /\ couponUsage st1 = couponUsage st.
Proof.
  simpl. destruct (products st !! pid) as [p|] eqn:Hp; [|discriminate].
  intros [= <-]. unfold stock_of, variants_of, restocked. cbn [with_products products
    orders coupons couponUsage].
  split; [|split; [|done]]; intros pid'.
  - destruct (String.eqb_spec pid pid') as [<-|Hne].
    + rewrite lookup_insert_eq, Hp. reflexivity.
    + rewrite lookup_insert_ne by done.
      destruct (products st !! pid'); simpl; [f_equal; lia|done].
  - destruct (decide (pid = pid')) as [<-|Hne].
    + rewrite lookup_insert_eq, Hp. reflexivity.
    + by rewrite lookup_insert_ne.
Qed.

Lemma commit_refunds_stock now items st st1 :
  commit st (refund_writes now items) = Some st1 ->
  (forall pid, stock_of pid st1
               = restocked (ordered_quantity pid items) (stock_of pid st))
  /\ (forall pid, variants_of pid st1 = variants_of pid st).
Proof.
  revert st. induction items as [|i items IH]; intros st.
  - simpl. intros [= <-]. split; [|done]. intros pid. unfold restocked.
    destruct (stock_of pid st); simpl; [f_equal; lia|done].
  - cbn [refund_writes map commit].
    destruct (apply_write st (IncrementStock (OrderItem.productId i)
                                (OrderItem.quantity i) now)) as [st0|] eqn:Hw;
      [|discriminate].
    apply apply_increment_stock in Hw as (Hs & Hv & _).
    intros Hc. apply IH in Hc as [IHs IHv]. split; intros pid.
    + rewrite IHs, Hs. cbn [ordered_quantity]. unfold restocked.
      destruct (stock_of pid st); simpl; [|done].
      destruct (String.eqb (OrderItem.productId i) pid); f_equal; lia.
    + by rewrite IHv, Hv.
Qed.

Lemma commit_refunds_total now items st :
  Forall (fun i => is_Some (products st !! OrderItem.productId i)) items ->
  is_Some (commit st (refund_writes now items)).
Proof.
  revert st. induction items as [|i items IH]; intros st Hall; [by eexists|].
  apply Forall_cons in Hall as [[p Hp] Hall].
  cbn [refund_writes map commit].
  destruct (apply_write st (IncrementStock (OrderItem.productId i)
                              (OrderItem.quantity i) now)) as [st0|] eqn:Hw;
    [|by simpl in Hw; rewrite Hp in Hw].
  apply IH. apply apply_increment_stock in Hw as (Hs & _).
  eapply Forall_impl; [exact Hall|]. intros j Hj. cbn beta in *.
  apply stock_of_is_Some. rewrite Hs. unfold restocked.
  apply fmap_is_Some. by apply stock_of_is_Some.
Qed.

Lemma commit_refunds_missing now items st i :
  i ∈ items -> products st !! OrderItem.productId i = None ->
  commit st (refund_writes now items) = None.
Proof.
  revert st. induction items as [|j items IH]; intros st Hin Hnone;
    [by apply elem_of_nil in Hin|].
  cbn [refund_writes map commit].
  destruct (apply_write st (IncrementStock (OrderItem.productId j)
                              (OrderItem.quantity j) now)) as [st0|] eqn:Hw;
    [|done].
  apply elem_of_cons in Hin as [->|Hin].
  - simpl in Hw. by rewrite Hnone in Hw.
  - apply (IH st0 Hin). apply apply_increment_stock in Hw as (Hs & _).
    apply eq_None_not_Some. intros Hsome. apply stock_of_is_Some in Hsome.
    rewrite Hs in Hsome. unfold restocked in Hsome. apply fmap_is_Some in Hsome.
    apply stock_of_is_Some in Hsome. rewrite Hnone in Hsome. by destruct Hsome.
Qed.

Lemma cancelOrder_done caller now id reason st order st1 :
  orders st !! id = Some order ->
  may_cancel caller order ->
  cancellable (Order.status order) = true ->
  commit st (refund_writes now (Order.items order)) = Some st1 ->
  cancelOrder caller now id reason st
  = (Success 200 "Order cancelled successfully" id
       (Some (set_cancelled order (or_string reason "Cancelled by customer")
                (User.id caller) now)),
     with_orders st1
       (<[id := set_cancelled order (or_string reason "Cancelled by customer")
                  (User.id caller) now]> (orders st))).
Proof.
  intros Ho Hmay Hc Hcommit. unfold cancelOrder. rewrite Ho.
  apply may_cancel_check in Hmay. rewrite Hmay, Hc. cbn [negb].
  unfold runTransaction. rewrite cancel_order_tx_spec, commit_app, Hcommit.
  apply commit_refunds in Hcommit as (Ho1 & _).
  cbn [mbind option_bind commit apply_write cancel_write]. rewrite Ho1, Ho.
  cbn [with_orders orders]. by rewrite lookup_insert_eq.
Qed.

(** X4.  A successful CancelOrder adds to every product's stockQuantity the
    units that the order's lines hold for it, several lines on one product
    adding up, and changes nothing else in the store but the order itself:
    no variant, no coupon, no usage record, no other order. *)
Theorem cancel_restocks_ordered_quantities
    caller now id reason st http msg id' oo st' :
  cancelOrder caller now id reason st = (Success http msg id' oo, st') ->
  exists order,
    orders st !! id = Some order
    /\ (forall pid, stock_of pid st'
                    = restocked (ordered_quantity pid (Order.items order))
                        (stock_of pid st))
    /\ (forall pid, variants_of pid st' = variants_of pid st)
    /\ (forall id2, id2 <> id -> orders st' !! id2 = orders st !! id2)
    /\ coupons st' = coupons st
    /\ couponUsage st' = couponUsage st.
Proof.
  intros Hcall.
  apply cancelOrder_success_inv in Hcall
    as (order & st1 & Ho & _ & _ & Hcommit & ->).
  exists order. split; [done|].
  apply commit_refunds in Hcommit as Hframe. destruct Hframe as (_ & Hc & Hu).
  apply commit_refunds_stock in Hcommit as [Hs Hv].
  split; [exact Hs|]. split; [exact Hv|].
  split; [|by split].
  intros id2 Hne. cbn [with_orders orders]. by rewrite lookup_insert_ne.
Qed.

(** X5.  When a product on the order no longer exists, the cancel
    transaction is rejected as a whole: the caller gets 500 SERVER_ERROR,
    the order keeps its status and no line is restocked. *)
Theorem cancel_fails_when_product_is_gone
    caller now id reason st order line :
  orders st !! id = Some order ->
  may_cancel caller order ->
  cancellable (Order.status order) = true ->
  line ∈ Order.items order ->
  products st !! OrderItem.productId line = None ->
  cancelOrder caller now id reason st
  = (Failure 500 "SERVER_ERROR" "Failed to cancel order", st).
Proof.
  intros Ho Hmay Hc Hin Hnone. unfold cancelOrder. rewrite Ho.
  apply may_cancel_check in Hmay. rewrite Hmay, Hc. cbn [negb].
  unfold runTransaction. rewrite cancel_order_tx_spec, commit_app.
  by rewrite (commit_refunds_missing now _ st line Hin Hnone).
Qed.

Lemma cancel_restocks_ordered_quantities_witness :
  stock_of "p2" (snd (cancelOrder ann 200 "o7" None shop_with_pending_order))
  = Some 4%Z
  /\ stock_of "p1" (snd (cancelOrder ann 200 "o7" None shop_with_pending_order))
     = Some 6%Z.
Proof.
  destruct (cancelOrder ann 200 "o7" None shop_with_pending_order)
    as [r st'] eqn:Hcall.
  assert (exists oo, r = Success 200 "Order cancelled successfully" "o7" oo)
    as [oo ->].
  { vm_compute in Hcall. injection Hcall as <- _. eexists. reflexivity. }
  destruct (cancel_restocks_ordered_quantities _ _ _ _ _ _ _ _ _ _ Hcall)
    as (order & Ho & Hs & _).
  assert (order = pending_order) as ->.
  { vm_compute in Ho. by injection Ho as <-. }
  cbn [snd]. rewrite !Hs. split; vm_compute; reflexivity.
Defined.

Lemma cancel_fails_when_product_is_gone_witness :
  cancelOrder ann 200 "o7" None shop_without_pen
  = (Failure 500 "SERVER_ERROR" "Failed to cancel order", shop_without_pen).
Proof.
  apply (cancel_fails_when_product_is_gone ann 200 "o7" None shop_without_pen
           pending_order (OrderItem.mk "p2" "Pen" 2%Q 1 None None 2%Q)).
  - vm_compute. reflexivity.
  - right. reflexivity.
  - reflexivity.
  - apply list_elem_of_In. simpl. auto.
  - vm_compute. reflexivity.
Defined.

(** ** The status route and the cancel route together *)

Lemma updateOrderStatus_done caller now id status ps st order :
  User.role caller = ADMIN_ROLE ->
  orders st !! id = Some order ->
  updateOrderStatus caller now id status ps st
  = (Success 200 "Order status updated successfully" id
       (Some (set_status order status ps now)),
     with_orders st (<[id := set_status order status ps now]> (orders st))).
Proof.
  intros Hadmin Ho. unfold updateOrderStatus, requireAdmin.
  apply String.eqb_eq in Hadmin. rewrite Hadmin, Ho.
  cbn [with_orders orders]. by rewrite lookup_insert_eq.
Qed.

(** X6.  The status route writes the order document only: an
    administrator can mark any order cancelled, whatever its status, and
    no product is restocked.  After that the cancel route refuses the order
    for every caller, so the units it holds are not returned. *)
Theorem cancelled_by_status_route_is_never_restocked
    admin now id ps st order :
  User.role admin = ADMIN_ROLE ->
  orders st !! id = Some order ->
  let st1 := snd (updateOrderStatus admin now id cancelled ps st) in
  (Order.status <$> orders st1 !! id) = Some cancelled
  /\ products st1 = products st
  /\ forall caller2 now2 reason2,
       is_failure (fst (cancelOrder caller2 now2 id reason2 st1)) = true
       /\ snd (cancelOrder caller2 now2 id reason2 st1) = st1.
Proof.
  intros Hadmin Ho st1. unfold st1.
  rewrite (updateOrderStatus_done admin now id cancelled ps st order Hadmin Ho).
  cbn [snd with_orders orders products].
  split; [by rewrite lookup_insert_eq|]. split; [done|].
  intros caller2 now2 reason2.
  destruct (cancelOrder_not_cancellable caller2 now2 id reason2
              (with_orders st (<[id := set_status order cancelled ps now]> (orders st)))
              (set_status order cancelled ps now))
    as (H1 & H2 & _); [apply lookup_insert_eq|reflexivity|].
  by split.
Qed.

Lemma cancelled_by_status_route_is_never_restocked_witness :
  let st1 := snd (updateOrderStatus administrator 150 "o7" cancelled None
                    shop_with_pending_order) in
  products st1 = products shop_with_pending_order
  /\ snd (cancelOrder ann 200 "o7" None st1) = st1.
Proof.
  intros st1.
  destruct (cancelled_by_status_route_is_never_restocked administrator 150 "o7"
              None shop_with_pending_order pending_order eq_refl
              ltac:(vm_compute; reflexivity)) as (_ & Hp & Hc).
  split; [exact Hp|]. apply (Hc ann 200%Z None).
Defined.

Lemma commit_refunds_exist now items st st1 :
  commit st (refund_writes now items) = Some st1 ->
  Forall (fun i => is_Some (products st !! OrderItem.productId i)) items.
Proof.
  intros Hc. apply Forall_forall. intros i Hi.
  destruct (products st !! OrderItem.productId i) eqn:Hp; [by eexists|].
  by rewrite (commit_refunds_missing now items st i Hi Hp) in Hc.
Qed.

(** X7.  The status route can put a cancelled order back to pending or
    processing, and the cancel route then accepts it again: the order's
    quantities are added to the stock a second time. *)
Theorem reopened_order_is_restocked_twice
    caller admin now1 now2 now3 id reason1 reason3 status ps st http msg id' oo st1 :
  cancelOrder caller now1 id reason1 st = (Success http msg id' oo, st1) ->
  User.role admin = ADMIN_ROLE ->
  cancellable status = true ->
  exists order oo3 st3,
    orders st !! id = Some order
    /\ cancelOrder caller now3 id reason3
         (snd (updateOrderStatus admin now2 id status ps st1))
       = (Success 200 "Order cancelled successfully" id oo3, st3)
    /\ forall pid,
         stock_of pid st3
         = restocked (2 * ordered_quantity pid (Order.items order))
             (stock_of pid st).
Proof.
  intros Hcall Hadmin Hs.
  apply cancelOrder_success_inv in Hcall
    as (order & st1a & Ho & Hmay & _ & Hcommit & ->).
  set (o1 := set_cancelled order (or_string reason1 "Cancelled by customer")
               (User.id caller) now1).
  set (st1 := with_orders st1a (<[id := o1]> (orders st))).
  assert (orders st1 !! id = Some o1) as Ho1 by apply lookup_insert_eq.
  rewrite (updateOrderStatus_done admin now2 id status ps st1 o1 Hadmin Ho1).
  cbn [snd].
  set (o2 := set_status o1 status ps now2).
  set (st2 := with_orders st1 (<[id := o2]> (orders st1))).
  apply commit_refunds_exist in Hcommit as Hexist.
  apply commit_refunds_stock in Hcommit as Hstock. destruct Hstock as [Hstock _].
  assert (is_Some (commit st2 (refund_writes now3 (Order.items o2)))) as [st3a Hc3].
  { apply commit_refunds_total. eapply Forall_impl; [exact Hexist|].
    intros i Hi. cbn beta in *. change (products st2) with (products st1a).
    apply stock_of_is_Some. rewrite Hstock. unfold restocked.
    apply fmap_is_Some. by apply stock_of_is_Some. }
  exists order. eexists. eexists. split; [done|]. split.
  - apply (cancelOrder_done caller now3 id reason3 st2 o2 st3a);
      [apply lookup_insert_eq|exact Hmay|exact Hs|exact Hc3].
  - intros pid. apply commit_refunds_stock in Hc3 as [Hs3 _].
    change (stock_of pid (with_orders st3a _)) with (stock_of pid st3a).
    rewrite Hs3. change (stock_of pid st2) with (stock_of pid st1a).
    rewrite Hstock. change (Order.items o2) with (Order.items order).
    unfold restocked. destruct (stock_of pid st); simpl; [f_equal; lia|done].
Qed.

Lemma reopened_order_is_restocked_twice_witness :
  exists oo3 st3,
    cancelOrder ann 300 "o7" None
      (snd (updateOrderStatus administrator 250 "o7" pending None
              (snd (cancelOrder ann 200 "o7" None shop_with_pending_order))))
    = (Success 200 "Order cancelled successfully" "o7" oo3, st3)
    /\ stock_of "p2" shop_with_pending_order = Some 1%Z
    /\ stock_of "p2" st3 = Some 7%Z.
Proof.
  destruct (cancelOrder ann 200 "o7" None shop_with_pending_order)
    as [r st1] eqn:Hcall.
  assert (exists oo, r = Success 200 "Order cancelled successfully" "o7" oo)
    as [oo ->].
  { vm_compute in Hcall. injection Hcall as <- _. eexists. reflexivity. }
  destruct (reopened_order_is_restocked_twice ann administrator 200 250 300 "o7"
              None None pending None shop_with_pending_order _ _ _ _ _
              Hcall eq_refl eq_refl)
    as (order & oo3 & st3 & Ho & Hcall3 & Hs).
  assert (order = pending_order) as ->.
  { vm_compute in Ho. by injection Ho as <-. }
  exists oo3, st3. cbn [snd]. split; [exact Hcall3|].
  split; [vm_compute; reflexivity|]. rewrite Hs. vm_compute. reflexivity.
Defined.

(** * Further properties of the coupon routes *)

(** ** Redemptions of unknown coupons *)

Lemma update_coupon_missing id f cs :
  lookup_coupon id cs = None -> update_coupon id f cs = None.
Proof.
  unfold lookup_coupon. induction cs as [|[k c] cs IH]; [done|]. simpl.
  destruct (String.eqb k id); [discriminate|].
  intros H. by rewrite (IH H).
Qed.

(** X8.  Redeeming a coupon id that does not exist answers 500
    SERVER_ERROR, yet the CouponUsage record written before the failing
    update stays in the store; the coupons are untouched. *)
Theorem apply_unknown_coupon_leaves_usage_record caller now req st :
  valid_apply_body req = true ->
  lookup_coupon (ApplyRequest.couponId req) (coupons st) = None ->
  applyCoupon caller now req st
  = (CouponFailure 500 "SERVER_ERROR",
     mkStore (products st) (orders st) (coupons st)
       (couponUsage st ++
          [CouponUsage.mk (ApplyRequest.couponId req) (ApplyRequest.orderId req)
             (User.id caller) (User.email caller)
             (ApplyRequest.discountAmount req) now])).
Proof.
  intros Hv Hnone. unfold applyCoupon. rewrite Hv. cbn [negb coupons].
  by rewrite (update_coupon_missing _ _ _ Hnone).
Qed.

Lemma apply_unknown_coupon_leaves_usage_record_witness :
  length (couponUsage (snd (applyCoupon ann 100 (ApplyRequest.mk "nope" "o1" 5%Q)
                              coupon_shop))) = 1%nat
  /\ fst (applyCoupon ann 100 (ApplyRequest.mk "nope" "o1" 5%Q) coupon_shop)
     = CouponFailure 500 "SERVER_ERROR".
Proof.
  rewrite (apply_unknown_coupon_leaves_usage_record ann 100
             (ApplyRequest.mk "nope" "o1" 5%Q) coupon_shop eq_refl eq_refl).
  split; reflexivity.
Defined.

(** ** usedCount and the usage records *)

Lemma update_coupon_other id id' f cs cs' :
  id' <> id ->
  update_coupon id f cs = Some cs' ->
  lookup_coupon id' cs' = lookup_coupon id' cs.
Proof.
  intros Hne. unfold lookup_coupon. revert cs'.
  induction cs as [|[k c] cs IH]; intros cs'; [done|]. simpl.
  destruct (String.eqb_spec k id) as [->|Hk].
  - intros [= <-]. simpl.
    destruct (String.eqb_spec id id') as [|_]; [congruence|done].
  - destruct (update_coupon id f cs) as [cs0|]; [|discriminate].
    intros [= <-]. simpl. destruct (String.eqb k id'); [done|]. by apply IH.
Qed.

Lemma usage_count_app id us u :
  usage_count id (us ++ [u])
  = (usage_count id us
     + if String.eqb (CouponUsage.couponId u) id then 1 else 0)%Z.
Proof.
  unfold usage_count. rewrite List.filter_app, length_app. simpl.
  destruct (String.eqb (CouponUsage.couponId u) id); simpl; lia.
Qed.

Lemma applyCoupon_counted caller now req st id :
  counted id st -> counted id (snd (applyCoupon caller now req st)).
Proof.
  intros (c & Hc & Hn). unfold applyCoupon.
  destruct (valid_apply_body req) eqn:Hv; cbn [negb]; [|by exists c].
  cbn [coupons].
  destruct (String.eqb_spec (ApplyRequest.couponId req) id) as [Heq|Hne].
  - rewrite Heq.
    destruct (update_coupon_found id (record_use now) _ _ Hc) as (cs' & -> & Hl).
    exists (record_use now c). cbn [snd coupons couponUsage]. split; [done|].
    rewrite usage_count_app. cbn [CouponUsage.couponId record_use Coupon.usedCount].
    rewrite String.eqb_refl. lia.
  - destruct (update_coupon (ApplyRequest.couponId req) (record_use now) (coupons st))
      as [cs'|] eqn:Hu;
      exists c; cbn [snd coupons couponUsage];
      rewrite usage_count_app; cbn [CouponUsage.couponId];
      destruct (String.eqb_spec (ApplyRequest.couponId req) id) as [|_];
      try congruence.
    + split; [|lia]. rewrite <- Hc.
      by apply (update_coupon_other (ApplyRequest.couponId req) id
                  (record_use now) (coupons st)).
    + split; [done|lia].
Qed.

(** X9.  Whatever redemptions are sent, well-formed or not, for this
    coupon or another, a coupon whose usedCount equals the number of its
    usage records keeps that equality; the admin view of the coupon then
    reports a usageCount equal to the usedCount of the document. *)
Theorem used_count_matches_usage_records calls st id admin :
  counted id st ->
  User.role admin = ADMIN_ROLE ->
  exists c,
    getCoupon admin id (snd (applyCoupons calls st))
    = CouponDetails id c (Coupon.usedCount c).
Proof.
  intros Hcounted Hadmin.
  assert (counted id (snd (applyCoupons calls st))) as (c & Hc & Hn).
  { revert st Hcounted. induction calls as [|[[caller now] req] calls IH];
      intros st Hcounted; [done|].
    cbn [applyCoupons snd]. apply IH. by apply applyCoupon_counted. }
  exists c. unfold getCoupon. apply String.eqb_eq in Hadmin.
  rewrite Hadmin, Hc. cbn [negb]. by rewrite Hn.
Qed.

Lemma used_count_matches_usage_records_witness :
  exists c,
    getCoupon administrator "c2"
      (snd (applyCoupons
              [redeem_by "u1";
               (ann, 100%Z, ApplyRequest.mk "nope" "o1" 5%Q);
               (ann, 100%Z, ApplyRequest.mk "c2" "" 5%Q);
               redeem_by "u2"] coupon_shop))
    = CouponDetails "c2" c 2.
Proof.
  destruct (used_count_matches_usage_records
              [redeem_by "u1";
               (ann, 100%Z, ApplyRequest.mk "nope" "o1" 5%Q);
               (ann, 100%Z, ApplyRequest.mk "c2" "" 5%Q);
               redeem_by "u2"] coupon_shop "c2" administrator)
    as (c & Hc).
  - exists single_use_coupon. split; reflexivity.
  - reflexivity.
  - exists c. rewrite Hc. f_equal.
    vm_compute in Hc. by injection Hc as <-.
Defined.

(** ** Redemption seen by validation *)

Lemma find_active_coupon_in code cs id c :
  find_active_coupon code cs = Some (id, c) -> id ∈ map fst cs.
Proof.
  unfold find_active_coupon. intros H. apply find_some in H as [Hin _].
  apply list_elem_of_In. apply (in_map fst) in Hin. exact Hin.
Qed.

Lemma find_active_after_use code cs cs' id c now :
  NoDup (map fst cs) ->
  find_active_coupon code cs = Some (id, c) ->
  update_coupon id (record_use now) cs = Some cs' ->
  find_active_coupon code cs' = Some (id, record_use now c).
Proof.
  unfold find_active_coupon. revert cs'.
  induction cs as [|[k c0] cs IH]; intros cs' Hnd; [done|].
  apply NoDup_cons in Hnd as [Hk Hnd]. cbn [find snd update_coupon].
  destruct (String.eqb (Coupon.code c0) code && Coupon.isActive c0) eqn:Hmatch.
  - intros [= -> ->]. rewrite String.eqb_refl. intros [= <-].
    cbn [find snd record_use Coupon.code Coupon.isActive]. by rewrite Hmatch.
  - intros Hfind. destruct (String.eqb_spec k id) as [->|Hne].
    + exfalso. apply Hk. exact (find_active_coupon_in code cs id c Hfind).
    + destruct (update_coupon id (record_use now) cs) as [cs0|] eqn:Hu;
        [|discriminate].
      intros [= <-]. cbn [find snd]. rewrite Hmatch. by apply IH.
Qed.

Lemma find_active_lookup code cs id c :
  NoDup (map fst cs) ->
  find_active_coupon code cs = Some (id, c) ->
  lookup_coupon id cs = Some c.
Proof.
  unfold lookup_coupon, find_active_coupon.
  induction cs as [|[k c0] cs IH]; intros Hn; [done|].
  apply NoDup_cons in Hn as [Hk Hn]. cbn [find fst snd].
  destruct (String.eqb (Coupon.code c0) code && Coupon.isActive c0).
  - intros [= -> ->]. by rewrite String.eqb_refl.
  - intros Hf. destruct (String.eqb_spec k id) as [->|_].
    + exfalso. apply Hk. exact (find_active_coupon_in code cs id c Hf).
    + by apply IH.
Qed.

Lemma user_usage_count_app id uid us u :
  user_usage_count id uid (us ++ [u])
  = (user_usage_count id uid us
     + if String.eqb (CouponUsage.couponId u) id
          && String.eqb (CouponUsage.userId u) uid then 1 else 0)%Z.
Proof.
  unfold user_usage_count. rewrite List.filter_app, length_app. simpl.
  destruct (String.eqb (CouponUsage.couponId u) id
            && String.eqb (CouponUsage.userId u) uid); simpl; lia.
Qed.

(** X10.  A redemption is seen by later validations.  Take a coupon that is
    the one found for a code, with its global limit or its limit per user
    one use away: once the user's well-formed redemption of that coupon has
    been recorded, no validation of the code that names the user is
    accepted any more.  Document ids are unique in the collection. *)
Theorem redeemed_coupon_is_refused_at_its_limit
    V caller now now' areq vreq st id c :
  NoDup (map fst (coupons st)) ->
  valid_apply_body areq = true ->
  ApplyRequest.couponId areq = id ->
  find_active_coupon (toUpperCase (trim V (ValidateRequest.code vreq))) (coupons st)
  = Some (id, c) ->
  ValidateRequest.userId vreq = Some (User.id caller) ->
  exhausted_by_next_use (User.id caller) id c st ->
  fst (applyCoupon caller now areq st) = CouponApplied
  /\ is_valid (fst (validateCoupon V now' vreq
                      (snd (applyCoupon caller now areq st)))) = false.
Proof.
  intros Hnd Hv Hid Hfind Huser Hlimit.
  pose proof (find_active_lookup _ _ _ _ Hnd Hfind) as Hc.
  rewrite <- Hid in Hc.
  destruct (applyCoupon_found caller now areq st c Hv Hc) as (cs' & Hcall & Hl).
  rewrite Hcall. cbn [fst snd]. split; [done|].
  assert (update_coupon id (record_use now) (coupons st) = Some cs') as Hu.
  { unfold applyCoupon in Hcall. rewrite Hv in Hcall. cbn [negb coupons] in Hcall.
    rewrite Hid in Hcall.
    destruct (update_coupon id (record_use now) (coupons st)); [|discriminate].
    by injection Hcall as <-. }
  pose proof (find_active_after_use _ _ _ _ _ now Hnd Hfind Hu) as Hfind'.
  unfold validateCoupon.
  destruct (valid_validate_body V vreq); cbn [negb]; [|done].
  cbn [coupons couponUsage]. rewrite Hfind'.
  destruct (not_started now' (record_use now c)); [done|].
  destruct (expired now' (record_use now c)); [done|].
  destruct (limit_reached (record_use now c)) eqn:Hglobal; [done|].
  assert (user_limit_reached vreq id (record_use now c)
            (couponUsage st ++
               [CouponUsage.mk (ApplyRequest.couponId areq) (ApplyRequest.orderId areq)
                  (User.id caller) (User.email caller)
                  (ApplyRequest.discountAmount areq) now]) = true) as ->; [|done].
  destruct Hlimit as [(M & HM & HM0 & Hle)|(m & Hm & Hm0 & Huid & Hle)].
  - exfalso. unfold limit_reached in Hglobal.
    cbn [record_use Coupon.maxUses Coupon.usedCount] in Hglobal.
    rewrite HM in Hglobal. cbn [truthy_Z default] in Hglobal.
    apply Z.eqb_neq in HM0. rewrite HM0 in Hglobal. cbn [negb andb] in Hglobal.
    unfold Datatypes.id in Hglobal. apply Z.leb_gt in Hglobal. lia.
  - unfold user_limit_reached, reads_user_usage.
    cbn [record_use Coupon.maxUsesPerUser]. rewrite Huser, Hm.
    rewrite (truthy_string_nonempty _ Huid). cbn [truthy_Z default andb].
    apply Z.eqb_neq in Hm0. rewrite Hm0. cbn [negb].
    rewrite user_usage_count_app. cbn [CouponUsage.couponId CouponUsage.userId].
    rewrite Hid, !String.eqb_refl. cbn [andb]. unfold Datatypes.id.
    apply Z.leb_le.
    unfold user_usage in Hle. lia.
Qed.

Lemma redeemed_coupon_is_refused_at_its_limit_witness :
  fst (applyCoupon ann 100 (ApplyRequest.mk "c2" "o1" 5%Q) coupon_shop)
  = CouponApplied
  /\ is_valid (fst (validateCoupon no_validation 200
                      (ValidateRequest.mk "once" 30%Q (Some "u1") None [])
                      (snd (applyCoupon ann 100 (ApplyRequest.mk "c2" "o1" 5%Q)
                              coupon_shop)))) = false.
Proof.
  apply (redeemed_coupon_is_refused_at_its_limit no_validation ann 100 200
           (ApplyRequest.mk "c2" "o1" 5%Q)
           (ValidateRequest.mk "once" 30%Q (Some "u1") None [])
           coupon_shop "c2" single_use_coupon).
  - repeat constructor. intros H. by apply elem_of_nil in H.
  - reflexivity.
  - reflexivity.
  - reflexivity.
  - reflexivity.
  - left. exists 1%Z. repeat split; [done|simpl; lia].
Defined.

(** ** The discount of an accepted coupon *)










(** * Properties of the review routes *)

(** ** One review per user and product *)

Lemma already_reviewed_false pid uid rs :
  already_reviewed pid uid rs = false ->
  forall id r, rs !! id = Some r ->
               ~ (Review.productId r = pid /\ Review.userId r = uid).
Proof.
  unfold already_reviewed. intros Hnone id r Hr [Hp Hu].
  assert (existsb (fun kv : string * Review.t =>
                     String.eqb (Review.productId (snd kv)) pid
                     && String.eqb (Review.userId (snd kv)) uid)
                  (map_to_list rs) = true) as Hex; [|congruence].
  apply existsb_exists. exists (id, r). split.
  - apply list_elem_of_In. by apply elem_of_map_to_list.
  - simpl. rewrite Hp, Hu, !String.eqb_refl. reflexivity.
Qed.

Lemma already_reviewed_true pid uid rs id r :
  rs !! id = Some r -> Review.productId r = pid -> Review.userId r = uid ->
  already_reviewed pid uid rs = true.
Proof.
  intros Hr Hp Hu. destruct (already_reviewed pid uid rs) eqn:E; [done|].
  exfalso. by apply (already_reviewed_false pid uid rs E id r Hr).
Qed.

Lemma one_review_each_insert_new rs id r :
  one_review_each rs ->
  (forall id0 r0, rs !! id0 = Some r0 ->
                  ~ (Review.productId r0 = Review.productId r
                     /\ Review.userId r0 = Review.userId r)) ->
  one_review_each (<[id := r]> rs).
Proof.
  intros Hone Hnew id1 id2 r1 r2 H1 H2 Hp Hu.
  destruct (decide (id = id1)) as [<-|Hne1]; destruct (decide (id = id2)) as [<-|Hne2];
    [done| | |].
  - rewrite lookup_insert_eq in H1. injection H1 as <-.
    rewrite lookup_insert_ne in H2 by done. exfalso. by apply (Hnew id2 r2 H2).
  - rewrite lookup_insert_eq in H2. injection H2 as <-.
    rewrite lookup_insert_ne in H1 by done. exfalso. by apply (Hnew id1 r1 H1).
  - rewrite lookup_insert_ne in H1, H2 by done. by apply (Hone id1 id2 r1 r2).
Qed.

Lemma one_review_each_insert_same rs id r r' :
  one_review_each rs ->
  rs !! id = Some r ->
  Review.productId r' = Review.productId r ->
  Review.userId r' = Review.userId r ->
  one_review_each (<[id := r']> rs).
Proof.
  intros Hone Hr Hp' Hu' id1 id2 r1 r2 H1 H2 Hp Hu.
  destruct (decide (id = id1)) as [<-|Hne1]; destruct (decide (id = id2)) as [<-|Hne2];
    [done| | |].
  - rewrite lookup_insert_eq in H1. injection H1 as <-.
    rewrite lookup_insert_ne in H2 by done.
    apply (Hone id id2 r r2); congruence.
  - rewrite lookup_insert_eq in H2. injection H2 as <-.
    rewrite lookup_insert_ne in H1 by done.
    apply (Hone id1 id r1 r); congruence.
  - rewrite lookup_insert_ne in H1, H2 by done. by apply (Hone id1 id2 r1 r2).
Qed.

Lemma one_review_each_delete rs id :
  one_review_each rs -> one_review_each (delete id rs).
Proof.
  intros Hone id1 id2 r1 r2 H1 H2. apply lookup_delete_Some in H1 as [_ H1].
  apply lookup_delete_Some in H2 as [_ H2]. by apply (Hone id1 id2 r1 r2).
Qed.

Lemma updateProductRating_reviews now pid rst :
  reviews (updateProductRating now pid rst) = reviews rst.
Proof.
  unfold updateProductRating. by destruct (products (db rst) !! pid).
Qed.

Lemma review_call_one_review_each RV now call rst :
  one_review_each (reviews rst) ->
  one_review_each (reviews (snd (review_call RV now call rst))).
Proof.
  intros Hone. destruct call as [caller dn newId b|caller id e|caller id|id h|caller id a n];
    cbn [review_call].
  - unfold createReview. destruct (valid_review_body RV b); cbn [negb]; [|done].
    destruct (products (db rst) !! ReviewBody.productId b); [|done].
    destruct (already_reviewed _ _ (reviews rst)) eqn:Hdup; [done|].
    cbn [snd reviews]. apply one_review_each_insert_new; [done|].
    intros id0 r0 Hr0. cbn [Review.productId Review.userId].
    by apply (already_reviewed_false _ _ _ Hdup id0 r0).
  - unfold updateReview. destruct (reviews rst !! id) as [r|] eqn:Hr; [|done].
    destruct (negb (String.eqb (Review.userId r) (User.id caller))); [done|].
    destruct (no_edit e); [done|]. cbn [snd with_reviews reviews].
    by apply (one_review_each_insert_same _ id r).
  - unfold deleteReview. destruct (reviews rst !! id) as [r|] eqn:Hr; [|done].
    destruct (negb (String.eqb (Review.userId r) (User.id caller))
              && negb (String.eqb (User.role caller) ADMIN_ROLE)); [done|].
    cbn [snd]. rewrite updateProductRating_reviews. cbn [with_reviews reviews].
    by apply one_review_each_delete.
  - unfold markHelpful. destruct (reviews rst !! id) as [r|] eqn:Hr; [|done].
    cbn [snd with_reviews reviews].
    by apply (one_review_each_insert_same _ id r).
  - unfold moderateReview.
    destruct (negb (String.eqb (User.role caller) ADMIN_ROLE)); [done|].
    destruct (reviews rst !! id) as [r|] eqn:Hr; [|done]. cbn [snd].
    destruct a; [rewrite updateProductRating_reviews|]; cbn [with_reviews reviews];
      by apply (one_review_each_insert_same _ id r).
Qed.

(** X12.  Whatever calls are made on the review routes (create, edit,
    delete, vote, moderate), by whomever and in any order, a collection in
    which no user has two reviews of one product stays so. *)
Theorem reviews_stay_one_per_user_and_product RV calls rst :
  one_review_each (reviews rst) ->
  one_review_each (reviews (review_calls RV calls rst)).
Proof.
  revert rst. induction calls as [|[now call] calls IH]; intros rst Hone; [done|].
  cbn [review_calls]. apply IH. by apply review_call_one_review_each.
Qed.

Lemma reviews_stay_one_per_user_and_product_witness :
  one_review_each
    (reviews (review_calls length_at_most
                [(10%Z, CreateReview ann None "r1" (mug_review 4));
                 (11%Z, CreateReview ann None "r2" (mug_review 1));
                 (12%Z, ModerateReview administrator "r1" true None);
                 (13%Z, UpdateReview ann "r1"
                          (ReviewEdit.mk (Some 5%Z) None None None))]
                review_shop)).
Proof.
  apply (reviews_stay_one_per_user_and_product length_at_most).
  intros id1 id2 r1 r2 H1.
  change (reviews review_shop) with (∅ : gmap string Review.t) in H1.
  by rewrite lookup_empty in H1.
Defined.

(** ** A new review *)

Lemma purchased_spec pid uid st :
  purchased pid uid (orders st) = true <-> has_delivered pid uid st.
Proof.
  unfold purchased, has_delivered. rewrite existsb_exists. split.
  - intros ([id o] & Hin & Hok). apply list_elem_of_In, elem_of_map_to_list in Hin.
    cbn [snd] in Hok. apply andb_prop in Hok as [Hok Hline].
    apply andb_prop in Hok as [Hu Hs]. apply bool_decide_eq_true in Hu.
    apply existsb_exists in Hline as (line & Hl & Hp).
    apply String.eqb_eq in Hp. apply list_elem_of_In in Hl.
    exists id, o, line. repeat split; auto. by destruct (Order.status o).
  - intros (id & o & line & Ho & Hu & Hs & Hl & Hp). exists (id, o). split.
    + apply list_elem_of_In. by apply elem_of_map_to_list.
    + cbn [snd]. rewrite Hs. rewrite bool_decide_eq_true_2 by done. cbn [andb].
      apply existsb_exists. exists line. split; [by apply list_elem_of_In|].
      by apply String.eqb_eq.
Qed.

(** X13.  A review that is accepted is stored under the new id, waits for
    approval, and is flagged as a verified purchase exactly when its author
    has a delivered order holding the product.  The product's rating fields
    and every other collection are left as they were, and a second review
    of the same product by the same user is refused with 409
    ALREADY_REVIEWED and writes nothing. *)
Theorem new_review_is_pending_and_unique
    RV caller displayName now newId b rst http id r rst' :
  createReview RV caller displayName now newId b rst
  = (ReviewSuccess http id (Some r), rst') ->
  id = newId
  /\ reviews rst' !! newId = Some r
  /\ Review.isApproved r = false
  /\ (Review.verifiedPurchase r = true
      <-> has_delivered (ReviewBody.productId b) (User.id caller) (db rst))
  /\ ratings rst' = ratings rst
  /\ db rst' = db rst
  /\ forall RV2 displayName2 now2 newId2 b2,
       valid_review_body RV2 b2 = true ->
       ReviewBody.productId b2 = ReviewBody.productId b ->
       createReview RV2 caller displayName2 now2 newId2 b2 rst'
       = (ReviewFailure 409 "ALREADY_REVIEWED", rst').
Proof.
  unfold createReview at 1.
  destruct (valid_review_body RV b); cbn [negb]; [|discriminate].
  destruct (products (db rst) !! ReviewBody.productId b) as [product|] eqn:Hp;
    [|discriminate].
  destruct (already_reviewed _ _ (reviews rst)); [discriminate|].
  intros [= _ <- <- <-]. cbn [reviews ratings db Review.isApproved
                              Review.verifiedPurchase].
  split; [done|]. split; [apply lookup_insert_eq|]. split; [done|].
  split; [apply purchased_spec|]. split; [done|]. split; [done|].
  intros RV2 displayName2 now2 newId2 b2 Hv2 Hpid.
  unfold createReview. rewrite Hv2. cbn [negb db reviews]. rewrite Hpid, Hp.
  rewrite (already_reviewed_true _ _ _ newId _ (lookup_insert_eq _ _ _)); done.
Qed.

Lemma new_review_is_pending_and_unique_witness :
  exists r rst',
    createReview length_at_most ann None 10 "r1" (mug_review 4) review_shop
    = (ReviewSuccess 201 "r1" (Some r), rst')
    /\ Review.isApproved r = false
    /\ Review.verifiedPurchase r = true
    /\ createReview length_at_most ann (Some "Ann") 11 "r2" (mug_review 1) rst'
       = (ReviewFailure 409 "ALREADY_REVIEWED", rst').
Proof.
  destruct (createReview length_at_most ann None 10 "r1" (mug_review 4) review_shop)
    as [resp rst'] eqn:Hcall.
  assert (exists r, resp = ReviewSuccess 201 "r1" (Some r)) as [r ->].
  { vm_compute in Hcall. injection Hcall as <- _. eexists. reflexivity. }
  exists r, rst'. split; [reflexivity|].
  destruct (new_review_is_pending_and_unique _ _ _ _ _ _ _ _ _ _ _ Hcall)
    as (_ & _ & Hpending & Hverified & _ & _ & Hsecond).
  split; [exact Hpending|]. split.
  - apply Hverified. exists "o3", delivered_order,
      (OrderItem.mk "p1" "Mug" (1001 # 100)%Q 1 None None (1001 # 100)%Q).
    repeat split; try (vm_compute; reflexivity).
    apply list_elem_of_In. simpl. auto.
  - apply Hsecond; reflexivity.
Defined.

(** ** The rating fields of a product *)

Lemma foldr_rating_bounds (l : list (string * Review.t)) lo hi :
  Forall (fun kv => (lo <= Review.rating (snd kv) <= hi)%Z) l ->
  (lo * Z.of_nat (length l)
   <= foldr (uncurry (fun (_ : string) r acc => (acc + Review.rating r)%Z)) 0%Z l
   <= hi * Z.of_nat (length l))%Z.
Proof.
  induction 1 as [|[k r] l Hr _ IH]; simpl; [lia|].
  cbn [snd] in Hr. lia.
Qed.

Lemma total_rating_bounds rs lo hi :
  (forall id r, rs !! id = Some r -> (lo <= Review.rating r <= hi)%Z) ->
  (lo * Z.of_nat (size rs) <= total_rating rs <= hi * Z.of_nat (size rs))%Z.
Proof.
  intros Hall. unfold total_rating. rewrite map_fold_foldr, <- length_map_to_list.
  apply foldr_rating_bounds. apply Forall_forall. intros [id r] Hin.
  apply elem_of_map_to_list in Hin. by apply (Hall id r).
Qed.

Lemma round_tenths_lower k x :
  (inject_Z k <= x)%Q -> (inject_Z k <= round_tenths x)%Q.
Proof.
  intros Hx. unfold round_tenths.
  assert (10 * k <= Qfloor (x * 10 + (1 # 2)))%Z as Hn.
  { assert (Qfloor (inject_Z (10 * k) + (1 # 2)) = (10 * k)%Z) as <-.
    { unfold Qfloor, Qplus, inject_Z. simpl. change (Z.pos (1 * 2)) with 2%Z.
      replace (_ * 2 + 1 * 1)%Z with (1 + (10 * k) * 2)%Z by lia.
      rewrite Z.div_add by lia. reflexivity. }
    apply Qfloor_resp_le. apply Qplus_le_l.
    apply Qle_trans with (inject_Z k * 10)%Q.
    - apply Qle_lteq. right. unfold Qeq. simpl. lia.
    - apply Qmult_le_compat_r; [exact Hx|discriminate]. }
  set (n := Qfloor (x * 10 + (1 # 2))) in *. unfold Qle. simpl. lia.
Qed.

Lemma round_tenths_upper k x :
  (x <= inject_Z k)%Q -> (round_tenths x <= inject_Z k)%Q.
Proof.
  intros Hx. unfold round_tenths.
  assert (Qfloor (x * 10 + (1 # 2)) <= 10 * k)%Z as Hn.
  { assert (Qfloor (inject_Z (10 * k) + (1 # 2)) = (10 * k)%Z) as <-.
    { unfold Qfloor, Qplus, inject_Z. simpl. change (Z.pos (1 * 2)) with 2%Z.
      replace (_ * 2 + 1 * 1)%Z with (1 + (10 * k) * 2)%Z by lia.
      rewrite Z.div_add by lia. reflexivity. }
    apply Qfloor_resp_le. apply Qplus_le_l.
    apply Qle_trans with (inject_Z k * 10)%Q.
    - apply Qmult_le_compat_r; [exact Hx|discriminate].
    - apply Qle_lteq. right. unfold Qeq. simpl. lia. }
  set (n := Qfloor (x * 10 + (1 # 2))) in *. unfold Qle. simpl. lia.
Qed.

Lemma approved_reviews_lookup pid rs id r :
  approved_reviews pid rs !! id = Some r
  <-> rs !! id = Some r /\ Review.productId r = pid /\ Review.isApproved r = true.
Proof. unfold approved_reviews. by rewrite map_lookup_filter_Some. Qed.

(** What [product_rating] computes. *)
Lemma product_rating_facts pid rst :
  Rating.reviewCount (product_rating pid (reviews rst)) = approved_count pid rst
  /\ (approved_count pid rst = 0%Z ->
      (Rating.averageRating (product_rating pid (reviews rst)) == 0)%Q)
  /\ ((0 < approved_count pid rst)%Z -> stars_in_range pid rst ->
      (1 <= Rating.averageRating (product_rating pid (reviews rst)) <= 5)%Q).
Proof.
  unfold product_rating, approved_count. cbn [Rating.reviewCount Rating.averageRating].
  set (approved := approved_reviews pid (reviews rst)).
  split; [done|]. split.
  - intros ->. reflexivity.
  - intros Hpos Hstars. apply Z.ltb_lt in Hpos as Hb. rewrite Hb.
    destruct (total_rating_bounds approved 1 5) as [Hlo Hhi].
    { intros id r Hr. apply approved_reviews_lookup in Hr as (Hr & Hp & Ha).
      by apply (Hstars id r). }
    assert (0 < inject_Z (Z.of_nat (size approved)))%Q as Hq
      by (unfold Qlt; simpl; lia).
    split.
    + apply (round_tenths_lower 1). apply Qle_shift_div_l; [done|].
      rewrite <- inject_Z_mult, <- Zle_Qle. lia.
    + apply (round_tenths_upper 5). apply Qle_shift_div_r; [done|].
      rewrite <- inject_Z_mult, <- Zle_Qle. lia.
Qed.

Lemma updateProductRating_rating now pid rst :
  is_Some (products (db rst) !! pid) ->
  ratings (updateProductRating now pid rst) !! pid
  = Some (product_rating pid (reviews rst)).
Proof.
  intros [p Hp]. unfold updateProductRating. rewrite Hp. cbn [ratings].
  apply lookup_insert_eq.
Qed.

(** X14.  After a review is approved, and after a review is deleted, the
    rating fields of its product are those of the approved reviews the
    store then holds: reviewCount is their number (at least one after an
    approval) and averageRating lies between 1 and 5 when their stars do,
    and is 0 when there is none.  The product must still exist. *)
Theorem rating_follows_approval_and_deletion RV caller now id note rst r :
  reviews rst !! id = Some r ->
  is_Some (products (db rst) !! Review.productId r) ->
  let pid := Review.productId r in
  (forall resp rst',
      moderateReview RV caller now id true note rst = (resp, rst') ->
      User.role caller = ADMIN_ROLE ->
      exists rating,
        ratings rst' !! pid = Some rating
        /\ Rating.reviewCount rating = approved_count pid rst'
        /\ (1 <= approved_count pid rst')%Z
        /\ (stars_in_range pid rst' ->
            (1 <= Rating.averageRating rating <= 5)%Q))
  /\ (forall resp rst',
         deleteReview caller now id rst = (resp, rst') ->
         Review.userId r = User.id caller \/ User.role caller = ADMIN_ROLE ->
         reviews rst' !! id = None
         /\ exists rating,
              ratings rst' !! pid = Some rating
              /\ Rating.reviewCount rating = approved_count pid rst'
              /\ (approved_count pid rst' = 0%Z ->
                  (Rating.averageRating rating == 0)%Q)
              /\ ((0 < approved_count pid rst')%Z -> stars_in_range pid rst' ->
                  (1 <= Rating.averageRating rating <= 5)%Q)).
Proof.
  intros Hr Hp pid. subst pid. set (pid := Review.productId r) in *. split.
  - intros resp rst' Hcall Hadmin. unfold moderateReview in Hcall.
    apply String.eqb_eq in Hadmin. rewrite Hadmin, Hr in Hcall. cbn [negb] in Hcall.
    injection Hcall as _ <-. fold pid.
    set (rst1 := with_reviews rst _).
    assert (approved_count pid (updateProductRating now pid rst1)
            = approved_count pid rst1) as Hsame
      by (unfold approved_count; by rewrite updateProductRating_reviews).
    destruct (product_rating_facts pid rst1) as (Hcount & _ & Havg).
    assert (1 <= approved_count pid rst1)%Z as Hone.
    { unfold approved_count.
      assert (size (approved_reviews pid (reviews rst1)) <> 0%nat); [|lia].
      apply map_size_non_empty_iff. intros Hempty.
      assert (approved_reviews pid (reviews rst1) !! id
              = Some (moderate true (User.email caller)
                        (null_if_falsy (trim (base RV) <$> note)) now r)) as Hin.
      { apply approved_reviews_lookup. split; [apply lookup_insert_eq|done]. }
      by rewrite Hempty, lookup_empty in Hin. }
    exists (product_rating pid (reviews rst1)).
    split; [by apply updateProductRating_rating|].
    rewrite Hsame. split; [done|]. split; [done|].
    intros Hstars. apply Havg; [lia|].
    intros id0 r0 Hr0. apply (Hstars id0 r0).
    by rewrite updateProductRating_reviews.
  - intros resp rst' Hcall Hmay. unfold deleteReview in Hcall. rewrite Hr in Hcall.
    assert (negb (String.eqb (Review.userId r) (User.id caller))
            && negb (String.eqb (User.role caller) ADMIN_ROLE) = false) as Hauth.
    { apply andb_false_iff. rewrite !negb_false_iff, !String.eqb_eq. exact Hmay. }
    rewrite Hauth in Hcall. injection Hcall as _ <-. fold pid.
    set (rst1 := with_reviews rst _).
    assert (approved_count pid (updateProductRating now pid rst1)
            = approved_count pid rst1) as Hsame
      by (unfold approved_count; by rewrite updateProductRating_reviews).
    destruct (product_rating_facts pid rst1) as (Hcount & Hzero & Havg).
    split; [rewrite updateProductRating_reviews; apply lookup_delete_eq|].
    exists (product_rating pid (reviews rst1)).
    split; [by apply updateProductRating_rating|].
    rewrite Hsame. split; [done|]. split; [done|].
    intros Hpos Hstars. apply Havg; [done|].
    intros id0 r0 Hr0. apply (Hstars id0 r0).
    by rewrite updateProductRating_reviews.
Qed.

Lemma approved_count_unapprove pid rst id r r' :
  reviews rst !! id = Some r ->
  Review.productId r = pid -> Review.isApproved r = true ->
  Review.isApproved r' = false ->
  approved_count pid rst
  = (approved_count pid (with_reviews rst (<[id := r']> (reviews rst))) + 1)%Z.
Proof.
  intros Hr Hp Ha Hna. unfold approved_count, approved_reviews.
  cbn [with_reviews reviews].
  rewrite map_filter_insert_False by (cbn [snd]; intros [_ H]; congruence).
  rewrite map_filter_delete, map_size_delete_Some.
  - assert (size (filter (fun kv : string * Review.t =>
                            Review.productId (snd kv) = pid
                            /\ Review.isApproved (snd kv) = true) (reviews rst))
            <> 0%nat); [|lia].
    apply map_size_non_empty_iff. intros Hempty.
    assert (approved_reviews pid (reviews rst) !! id = Some r) as Hin
      by (by apply approved_reviews_lookup).
    unfold approved_reviews in Hin. by rewrite Hempty, lookup_empty in Hin.
  - exists r. by apply map_lookup_filter_Some.
Qed.

(** X15.  Rejecting an approved review, or its author editing it, takes
    the review out of the approved ones but does not recompute the rating
    fields of the product: they stay as they were, so a reviewCount that
    matched the approved reviews before is one too high afterwards. *)
Theorem unapproved_review_still_counts RV admin author now id note edit rst r :
  reviews rst !! id = Some r ->
  Review.isApproved r = true ->
  let pid := Review.productId r in
  (User.role admin = ADMIN_ROLE ->
   let rst' := snd (moderateReview RV admin now id false note rst) in
   ratings rst' = ratings rst
   /\ (Review.isApproved <$> reviews rst' !! id) = Some false
   /\ approved_count pid rst = (approved_count pid rst' + 1)%Z)
  /\ (Review.userId r = User.id author -> no_edit edit = false ->
      let rst' := snd (updateReview author now id edit rst) in
      ratings rst' = ratings rst
      /\ (Review.isApproved <$> reviews rst' !! id) = Some false
      /\ approved_count pid rst = (approved_count pid rst' + 1)%Z).
Proof.
  intros Hr Ha pid. split.
  - intros Hadmin rst'. unfold rst', moderateReview.
    apply String.eqb_eq in Hadmin. rewrite Hadmin, Hr. cbn [negb snd].
    split; [done|]. split; [cbn [with_reviews reviews]; by rewrite lookup_insert_eq|].
    by apply (approved_count_unapprove pid rst id r).
  - intros Howner Hedit rst'. unfold rst', updateReview.
    apply String.eqb_eq in Howner. rewrite Hr, Howner, Hedit. cbn [negb snd].
    split; [done|]. split; [cbn [with_reviews reviews]; by rewrite lookup_insert_eq|].
    by apply (approved_count_unapprove pid rst id r).
Qed.

Lemma rating_follows_approval_and_deletion_witness :
  exists rating,
    ratings (snd (moderateReview length_at_most administrator 12 "r1" true None
                    reviewed_shop)) !! "p1" = Some rating
    /\ Rating.reviewCount rating = 1%Z
    /\ (Rating.averageRating rating == 4)%Q.
Proof.
  destruct (reviews reviewed_shop !! "r1") as [r|] eqn:Hr;
    [|vm_compute in Hr; discriminate].
  assert (Review.productId r = "p1") as Hpid
    by (vm_compute in Hr; by injection Hr as <-).
  destruct (rating_follows_approval_and_deletion length_at_most administrator 12
              "r1" None reviewed_shop r Hr) as [Happrove _].
  { rewrite Hpid. vm_compute. by eexists. }
  destruct (Happrove _ _ eq_refl eq_refl) as (rating & Hrating & _).
  rewrite Hpid in Hrating. exists rating. split; [exact Hrating|].
  vm_compute in Hrating. injection Hrating as <-. split; reflexivity.
Defined.

Lemma unapproved_review_still_counts_witness :
  let rst' := snd (moderateReview length_at_most administrator 14 "r1" false None
                     approved_shop) in
  ratings rst' = ratings approved_shop
  /\ approved_count "p1" approved_shop = 2%Z
  /\ approved_count "p1" rst' = 1%Z.
Proof.
  intros rst'.
  destruct (reviews approved_shop !! "r1") as [r|] eqn:Hr;
    [|vm_compute in Hr; discriminate].
  assert (Review.productId r = "p1" /\ Review.isApproved r = true) as [Hpid Ha]
    by (vm_compute in Hr; by injection Hr as <-).
  destruct (unapproved_review_still_counts length_at_most administrator ann 14
              "r1" None (ReviewEdit.mk None None None None) approved_shop r Hr Ha)
    as [Hreject _].
  destruct (Hreject eq_refl) as (Hratings & _ & Hcount).
  rewrite Hpid in Hcount. fold rst' in Hratings, Hcount.
  split; [exact Hratings|].
  assert (approved_count "p1" approved_shop = 2%Z) as H2
    by (vm_compute; reflexivity).
  split; [exact H2|]. lia.
Defined.

(** * Properties of coupon administration *)

(** ** Distinct ids and codes *)

Lemma insert_by_id_perm id c cs : insert_by_id id c cs ≡ₚ (id, c) :: cs.
Proof.
  induction cs as [|[k c0] cs IH]; simpl; [done|].
  destruct (String.ltb id k); [done|]. rewrite IH. apply Permutation_swap.
Qed.

Lemma code_exists_false code cs :
  code_exists code cs = false -> code ∉ map coupon_code cs.
Proof.
  unfold code_exists. intros Hnone Hin. apply list_elem_of_fmap in Hin as (d & -> & Hd).
  assert (existsb (fun d0 => String.eqb (Coupon.code (snd d0)) (coupon_code d)) cs = true)
    as Hex; [|congruence].
  apply existsb_exists. exists d. split; [by apply list_elem_of_In|].
  apply String.eqb_refl.
Qed.

Lemma lookup_coupon_None id cs : lookup_coupon id cs = None -> id ∉ map fst cs.
Proof.
  unfold lookup_coupon. induction cs as [|[k c] cs IH]; simpl.
  - intros _ H. by apply elem_of_nil in H.
  - destruct (String.eqb_spec k id) as [->|Hne]; [discriminate|].
    intros H Hin. apply elem_of_cons in Hin as [Heq|Hin]; [congruence|].
    by apply IH.
Qed.

Lemma lookup_coupon_Some id cs c : lookup_coupon id cs = Some c -> (id, c) ∈ cs.
Proof.
  unfold lookup_coupon. induction cs as [|[k c0] cs IH]; simpl; [discriminate|].
  destruct (String.eqb_spec k id) as [->|Hne].
  - intros [= <-]. left.
  - intros H. right. by apply IH.
Qed.

Lemma update_coupon_maps id f cs cs' :
  (forall c, Coupon.code (f c) = Coupon.code c) ->
  update_coupon id f cs = Some cs' ->
  map fst cs' = map fst cs /\ map coupon_code cs' = map coupon_code cs.
Proof.
  intros Hf. revert cs'. induction cs as [|[k c] cs IH]; intros cs'; [done|].
  simpl. destruct (String.eqb k id).
  - intros [= <-]. simpl. unfold coupon_code at 1 3. simpl. by rewrite Hf.
  - destruct (update_coupon id f cs) as [cs0|]; [|discriminate].
    intros [= <-]. destruct (IH cs0 eq_refl) as [H1 H2]. simpl.
    by rewrite H1, H2.
Qed.

Lemma remove_coupon_elem {B} (g : string * Coupon.t -> B) id cs x :
  x ∈ map g (remove_coupon id cs) -> x ∈ map g cs.
Proof.
  induction cs as [|[k c] cs IH]; simpl; [done|].
  destruct (String.eqb k id); [by right|].
  intros H. apply elem_of_cons in H as [->|H]; [left|right; by apply IH].
Qed.

Lemma remove_coupon_NoDup {B} (g : string * Coupon.t -> B) id cs :
  NoDup (map g cs) -> NoDup (map g (remove_coupon id cs)).
Proof.
  induction cs as [|[k c] cs IH]; simpl; [done|].
  intros Hnd. apply NoDup_cons in Hnd as [Hk Hnd].
  destruct (String.eqb k id); [done|]. simpl. apply NoDup_cons. split; [|by apply IH].
  intros H. apply Hk. by apply (remove_coupon_elem g id cs).
Qed.

Lemma coupon_call_distinct_codes V now call ast :
  distinct_codes (coupons (main ast)) ->
  distinct_codes (coupons (main (coupon_call V now call ast))).
Proof.
  intros [Hids Hcodes]. destruct call as [caller newId b|caller id permanent|caller req];
    cbn [coupon_call].
  - unfold createCoupon.
    destruct (negb (String.eqb (User.role caller) ADMIN_ROLE)); [done|].
    destruct (negb (valid_coupon_body V b)); [done|].
    destruct (is_percentage _ && Qltb 100 _); [done|].
    destruct (code_exists _ (coupons (main ast))) eqn:Hcode; [done|].
    destruct (lookup_coupon newId (coupons (main ast))) eqn:Hid; [done|].
    cbn [snd main with_coupons coupons]. unfold distinct_codes.
    rewrite !(fmap_Permutation _ _ _ (insert_by_id_perm _ _ _)). simpl.
    split; apply NoDup_cons; split; auto.
    + by apply lookup_coupon_None.
    + by apply (code_exists_false _ _ Hcode).
  - unfold deleteCoupon.
    destruct (negb (String.eqb (User.role caller) ADMIN_ROLE)); [done|].
    destruct (lookup_coupon id (coupons (main ast))) as [c|] eqn:Hc; [|done].
    destruct (String.eqb (default "false" permanent) "true");
      cbn [snd main with_coupons coupons].
    + split; by apply remove_coupon_NoDup.
    + destruct (update_coupon id deactivate (coupons (main ast))) as [cs'|] eqn:Hu;
        [|done].
      change (default _ (Some cs')) with cs'. unfold distinct_codes.
      destruct (update_coupon_maps id deactivate _ cs' ltac:(done) Hu) as [H1 H2].
      unfold coupon_code in H2. by rewrite H1, H2.
  - cbn [main]. unfold applyCoupon.
    destruct (negb (valid_apply_body req)); [done|]. cbn [coupons].
    destruct (update_coupon (ApplyRequest.couponId req) (record_use now)
                (coupons (main ast))) as [cs'|] eqn:Hu; [|done].
    cbn [snd coupons]. unfold distinct_codes.
    destruct (update_coupon_maps _ (record_use now) _ cs' ltac:(done) Hu) as [H1 H2].
    unfold coupon_code in H2. by rewrite H1, H2.
Qed.

(** X16.  Whatever coupons are created, deleted (for good or not) and
    redeemed, by whomever and in any order, a collection whose document ids
    and whose codes are pairwise distinct stays so: a code never names two
    coupons, active or not. *)
Theorem coupon_codes_stay_distinct V calls ast :
  distinct_codes (coupons (main ast)) ->
  distinct_codes (coupons (main (coupon_calls V calls ast))).
Proof.
  revert ast. induction calls as [|[now call] calls IH]; intros ast Hd; [done|].
  cbn [coupon_calls]. apply IH. by apply coupon_call_distinct_codes.
Qed.

Lemma coupon_codes_stay_distinct_witness :
  distinct_codes
    (coupons (main (coupon_calls no_validation
                      [(10%Z, CreateCoupon administrator "c7" spring_sale);
                       (11%Z, CreateCoupon administrator "c8" spring_sale);
                       (12%Z, DeleteCoupon administrator "c2" None);
                       (13%Z, ApplyCoupon ann (ApplyRequest.mk "c7" "o1" 2%Q))]
                      coupon_office))).
Proof.
  apply (coupon_codes_stay_distinct no_validation).
  split; repeat constructor; intros H; by apply elem_of_nil in H.
Defined.

(** ** Creation and deletion seen by validation *)

Lemma find_active_coupon_none code cs :
  code ∉ map coupon_code cs -> find_active_coupon code cs = None.
Proof.
  unfold find_active_coupon. induction cs as [|[k c] cs IH]; [done|].
  intros Hnotin. cbn [find snd].
  destruct (String.eqb_spec (Coupon.code c) code) as [Heq|_].
  - exfalso. apply Hnotin. apply elem_of_cons. left. by rewrite <- Heq.
  - cbn [andb]. apply IH. intros H. apply Hnotin. apply elem_of_cons. by right.
Qed.

Lemma find_active_inserted id c cs :
  Coupon.code c ∉ map coupon_code cs ->
  find_active_coupon (Coupon.code c) (insert_by_id id c cs)
  = if Coupon.isActive c then Some (id, c) else None.
Proof.
  unfold find_active_coupon. induction cs as [|[k c0] cs IH]; intros Hnotin.
  - simpl. rewrite String.eqb_refl. by destruct (Coupon.isActive c).
  - cbn [insert_by_id].
    assert (String.eqb (Coupon.code c0) (Coupon.code c) = false) as Hne.
    { apply String.eqb_neq. intros Heq. apply Hnotin. apply elem_of_cons. left.
      by rewrite <- Heq. }
    assert (Coupon.code c ∉ map coupon_code cs) as Hrest
      by (intros H; apply Hnotin; apply elem_of_cons; by right).
    destruct (String.ltb id k).
    + cbn [find snd]. rewrite String.eqb_refl, Hne. cbn [andb].
      destruct (Coupon.isActive c); [done|].
      by apply (find_active_coupon_none _ _ Hrest).
    + cbn [find snd]. rewrite Hne. cbn [andb]. by apply IH.
Qed.

Lemma lookup_inserted id c cs :
  id ∉ map fst cs -> lookup_coupon id (insert_by_id id c cs) = Some c.
Proof.
  unfold lookup_coupon. induction cs as [|[k c0] cs IH]; intros Hnotin.
  - simpl. by rewrite String.eqb_refl.
  - cbn [insert_by_id]. destruct (String.ltb id k).
    + cbn [find fst]. by rewrite String.eqb_refl.
    + cbn [find fst]. destruct (String.eqb_spec k id) as [->|_].
      * exfalso. apply Hnotin. apply elem_of_cons. by left.
      * apply IH. intros H. apply Hnotin. apply elem_of_cons. by right.
Qed.

(** X17.  A coupon that is created can be used under its code at once.
    The document is stored under the new id with the code in upper case and
    usedCount 0, and every validation of that code is answered as if the
    new coupon were the only coupon of the store: the code leads to no
    other document.  A coupon created inactive is answered INVALID_COUPON. *)
Theorem created_coupon_is_the_one_validated
    V caller now newId b ast id c ast' :
  createCoupon V caller now newId b ast = (CouponCreated id c, ast') ->
  id = newId
  /\ lookup_coupon newId (coupons (main ast')) = Some c
  /\ Coupon.code c = toUpperCase (trim V (CouponBody.code b))
  /\ Coupon.usedCount c = 0%Z
  /\ couponUsage (main ast') = couponUsage (main ast)
  /\ forall V2 now2 vreq,
       toUpperCase (trim V2 (ValidateRequest.code vreq)) = Coupon.code c ->
       validateCoupon V2 now2 vreq (main ast')
       = validateCoupon V2 now2 vreq (with_coupons (main ast') [(newId, c)]).
Proof.
  unfold createCoupon.
  destruct (negb (String.eqb (User.role caller) ADMIN_ROLE)); [discriminate|].
  destruct (negb (valid_coupon_body V b)); [discriminate|].
  destruct (is_percentage _ && Qltb 100 _); [discriminate|].
  destruct (code_exists _ (coupons (main ast))) eqn:Hcode; [discriminate|].
  destruct (lookup_coupon newId (coupons (main ast))) eqn:Hid; [discriminate|].
  intros [= <- <- <-]. cbn [main with_coupons coupons couponUsage].
  apply lookup_coupon_None in Hid. apply code_exists_false in Hcode.
  split; [done|]. split; [by apply lookup_inserted|].
  split; [done|]. split; [done|]. split; [done|].
  intros V2 now2 vreq Hcode2. unfold validateCoupon.
  destruct (negb (valid_validate_body V2 vreq)); [done|].
  rewrite Hcode2. cbn [with_coupons coupons couponUsage].
  rewrite (find_active_inserted newId (new_coupon V b) _ Hcode).
  unfold find_active_coupon. cbn [find snd]. rewrite String.eqb_refl. cbn [andb].
  by destruct (Coupon.isActive (new_coupon V b)).
Qed.

Lemma created_coupon_is_the_one_validated_witness :
  exists c ast',
    createCoupon no_validation administrator 10 "c7" spring_sale coupon_office
    = (CouponCreated "c7" c, ast')
    /\ fst (validateCoupon no_validation 20
              (ValidateRequest.mk "spring-10" 500%Q None None []) (main ast'))
       = CouponValid "c7" "SPRING-10" percentage 10%Q (2000 # 100)%Q
           "Ten percent in spring" false.
Proof.
  destruct (createCoupon no_validation administrator 10 "c7" spring_sale
              coupon_office) as [resp ast'] eqn:Hcall.
  assert (resp = CouponCreated "c7" (new_coupon no_validation spring_sale)) as ->
    by (vm_compute in Hcall; by injection Hcall as <- _).
  exists (new_coupon no_validation spring_sale), ast'. split; [reflexivity|].
  destruct (created_coupon_is_the_one_validated _ _ _ _ _ _ _ _ _ Hcall)
    as (_ & _ & _ & _ & _ & Hvalidate).
  rewrite Hvalidate by reflexivity. vm_compute. reflexivity.
Defined.

Lemma lookup_coupon_code id cs c :
  lookup_coupon id cs = Some c -> Coupon.code c ∈ map coupon_code cs.
Proof.
  intros H. apply lookup_coupon_Some in H. apply list_elem_of_fmap.
  by exists (id, c).
Qed.

Lemma find_active_after_removal id cs c :
  NoDup (map coupon_code cs) ->
  lookup_coupon id cs = Some c ->
  find_active_coupon (Coupon.code c) (remove_coupon id cs) = None.
Proof.
  unfold lookup_coupon, find_active_coupon.
  induction cs as [|[k c0] cs IH]; [done|].
  intros Hnd. apply NoDup_cons in Hnd as [Hk Hnd]. cbn [find fst remove_coupon].
  destruct (String.eqb_spec k id) as [->|Hne].
  - intros [= <-]. by apply find_active_coupon_none.
  - intros Hl. cbn [find snd].
    assert (String.eqb (Coupon.code c0) (Coupon.code c) = false) as ->.
    { apply String.eqb_neq. intros Heq. apply Hk. unfold coupon_code at 1.
      cbn [snd]. rewrite Heq. by apply (lookup_coupon_code id). }
    cbn [andb]. by apply IH.
Qed.

Lemma find_active_after_deactivation id cs cs' c :
  NoDup (map coupon_code cs) ->
  lookup_coupon id cs = Some c ->
  update_coupon id deactivate cs = Some cs' ->
  find_active_coupon (Coupon.code c) cs' = None.
Proof.
  unfold lookup_coupon, find_active_coupon. revert cs'.
  induction cs as [|[k c0] cs IH]; intros cs'; [done|].
  intros Hnd. apply NoDup_cons in Hnd as [Hk Hnd]. cbn [find fst update_coupon].
  destruct (String.eqb_spec k id) as [->|Hne].
  - intros [= <-] [= <-]. cbn [find snd deactivate Coupon.isActive].
    rewrite andb_false_r. by apply find_active_coupon_none.
  - intros Hl. destruct (update_coupon id deactivate cs) as [cs0|] eqn:Hu;
      [|discriminate].
    intros [= <-]. cbn [find snd].
    assert (String.eqb (Coupon.code c0) (Coupon.code c) = false) as ->.
    { apply String.eqb_neq. intros Heq. apply Hk. unfold coupon_code at 1.
      cbn [snd]. rewrite Heq. by apply (lookup_coupon_code id). }
    cbn [andb]. by apply IH.
Qed.

(** X18.  Once an administrator has deleted a coupon, for good or by
    deactivation, every well-formed validation of its code is answered 404
    INVALID_COUPON (the codes of the collection being distinct); the usage
    records of the coupon are kept in both cases. *)
Theorem deleted_coupon_is_invalid admin now id permanent ast c :
  NoDup (map coupon_code (coupons (main ast))) ->
  lookup_coupon id (coupons (main ast)) = Some c ->
  User.role admin = ADMIN_ROLE ->
  let ast' := snd (deleteCoupon admin now id permanent ast) in
  couponUsage (main ast') = couponUsage (main ast)
  /\ forall V now2 vreq,
       valid_validate_body V vreq = true ->
       toUpperCase (trim V (ValidateRequest.code vreq)) = Coupon.code c ->
       validateCoupon V now2 vreq (main ast')
       = (CouponFailure 404 "INVALID_COUPON", [QueryCoupons (Coupon.code c)]).
Proof.
  intros Hnd Hc Hadmin ast'. unfold ast', deleteCoupon.
  apply String.eqb_eq in Hadmin. rewrite Hadmin, Hc. cbn [negb].
  destruct (update_coupon_found id deactivate _ _ Hc) as (cs' & Hu & _).
  destruct (String.eqb (default "false" permanent) "true");
    cbn [snd main with_coupons couponUsage]; (split; [done|]);
    intros V now2 vreq Hv Hcode; unfold validateCoupon; rewrite Hv, Hcode;
    cbn [negb with_coupons coupons].
  - by rewrite (find_active_after_removal id _ c Hnd Hc).
  - rewrite Hu. change (default _ (Some cs')) with cs'.
    by rewrite (find_active_after_deactivation id _ cs' c Hnd Hc Hu).
Qed.

Lemma deleted_coupon_is_invalid_witness :
  validateCoupon no_validation 20
    (ValidateRequest.mk "once" 30%Q None None [])
    (main (snd (deleteCoupon administrator 15 "c2" None coupon_office)))
  = (CouponFailure 404 "INVALID_COUPON", [QueryCoupons "ONCE"]).
Proof.
  destruct (deleted_coupon_is_invalid administrator 15 "c2" None coupon_office
              single_use_coupon) as [_ Hinvalid].
  - repeat constructor. intros H. by apply elem_of_nil in H.
  - reflexivity.
  - reflexivity.
  - apply (Hinvalid no_validation 20%Z
             (ValidateRequest.mk "once" 30%Q None None [])); reflexivity.
Defined.

(** * Reading an order back *)

Lemma first_by_id_elem {A} (docs : list (string * A)) d :
  first_by_id docs = Some d -> d ∈ docs.
Proof.
  revert d. induction docs as [|d0 docs IH]; intros d; [done|]. simpl.
  destruct (first_by_id docs) as [e|].
  - destruct (String.ltb (fst d0) (fst e)); intros [= <-]; [left|right; by apply IH].
  - intros [= <-]. left.
Qed.

Lemma find_order_by_number_spec n os id o :
  find_order_by_number n os = Some (id, o) ->
  os !! id = Some o /\ Order.orderNumber o = n.
Proof.
  unfold find_order_by_number. intros H. apply first_by_id_elem in H.
  apply list_elem_of_In, filter_In in H as [Hin Hn].
  apply list_elem_of_In, elem_of_map_to_list in Hin. apply String.eqb_eq in Hn.
  done.
Qed.

Lemma filter_none {A} (P : A -> bool) (l : list A) :
  (forall x, x ∈ l -> P x = false) -> List.filter P l = [].
Proof.
  induction l as [|x l IH]; intros Hnone; [done|]. simpl.
  rewrite (Hnone x) by left. apply IH. intros y Hy. apply Hnone. by right.
Qed.

Lemma filter_only {A} (P : A -> bool) (l : list A) a :
  NoDup l -> a ∈ l -> (forall x, x ∈ l -> P x = true <-> x = a) ->
  List.filter P l = [a].
Proof.
  induction l as [|x l IH]; intros Hnd Hin Honly; [by apply elem_of_nil in Hin|].
  apply NoDup_cons in Hnd as [Hx Hnd]. simpl.
  destruct (P x) eqn:Hpx.
  - assert (x = a) as -> by (apply Honly; [left|done]).
    f_equal. apply filter_none. intros y Hy.
    destruct (P y) eqn:Hpy; [|done].
    assert (y = a) as -> by (apply Honly; [by right|done]). done.
  - apply elem_of_cons in Hin as [->|Hin].
    + assert (P x = true) as Hpa by (apply Honly; [left|done]). congruence.
    + apply IH; [done|done|]. intros y Hy. apply Honly. by right.
Qed.

(** X19.  An order is shown only to a signed-in caller who is an
    administrator or its owner, and it is the stored document that carries
    the number asked for.  An order just placed under a number that no
    other order carries can be read back by the customer who placed it
    signed in, and cannot by the customer who placed it as a guest, who is
    answered 403. *)
Theorem order_is_shown_to_owner_or_admin :
  (forall caller orderNumber st id o,
      getOrder caller orderNumber st = OrderShown id o ->
      orders st !! id = Some o
      /\ Order.orderNumber o = orderNumber
      /\ exists u, caller = Some u
                   /\ (User.role u = ADMIN_ROLE
                       \/ Order.userId o = Some (User.id u)))
  /\ (forall V env req st http msg id o st',
         placeOrder V env req st = (Success http msg id (Some o), st') ->
         unused_number (orderNumber env) st ->
         getOrder (user env) (orderNumber env) st'
         = match user env with
           | Some _ => OrderShown id o
           | None => OrderDenied 403 "Forbidden" "Access denied"
           end).
Proof.
  split.
  - intros caller n st id o. unfold getOrder.
    destruct (find_order_by_number n (orders st)) as [[id0 o0]|] eqn:Hfind;
      [|discriminate].
    apply find_order_by_number_spec in Hfind as [Ho Hn].
    destruct caller as [u|]; [|discriminate].
    destruct (negb (String.eqb (User.role u) ADMIN_ROLE)
              && negb (bool_decide (Order.userId o0 = Some (User.id u))))
      eqn:Hauth; [discriminate|].
    intros [= <- <-]. split; [done|]. split; [done|]. exists u. split; [done|].
    by apply may_cancel_check.
  - intros V env req st http msg id o st' Hcall Hfresh.
    apply placeOrder_success_inv in Hcall
      as (item & product & itemPrice & variantName & _ & _ & _ & _ & _ & _ & _ & -> & Ho & ->).
    injection Ho as ->.
    set (o := placed_order V env req item product itemPrice variantName).
    assert (find_order_by_number (orderNumber env)
              (orders (placed_store V env req item product itemPrice variantName st))
            = Some (orderId env, o)) as Hfind.
    { unfold find_order_by_number. cbn [placed_store orders]. fold o.
      rewrite (filter_only _ _ (orderId env, o)); [done| | |].
      - apply NoDup_map_to_list.
      - apply elem_of_map_to_list, lookup_insert_eq.
      - intros [id2 o2] Hin. apply elem_of_map_to_list in Hin. cbn [snd].
        rewrite String.eqb_eq. split.
        + intros Hn. apply lookup_insert_Some in Hin as [[<- <-]|[Hne Hin]]; [done|].
          by destruct (Hfresh id2 o2 Hin).
        + by intros [= -> ->]. }
    unfold getOrder. rewrite Hfind. destruct (user env) as [u|] eqn:Hu; [|done].
    assert (Order.userId o = Some (User.id u)) as Howner
      by (unfold o, placed_order, build_order; cbn [Order.userId]; by rewrite Hu).
    rewrite (bool_decide_eq_true_2 _ Howner). cbn [negb]. by rewrite andb_false_r.
Qed.

Lemma order_is_shown_to_owner_or_admin_witness :
  (exists o st',
      placeOrder no_validation (signed_in ann "o1") (cart [Item.mk "p2" 1 None None]) shop
      = (Success 201 "Order created successfully" "o1" (Some o), st')
      /\ getOrder (Some ann) "ORD-TEST-0002" st' = OrderShown "o1" o)
  /\ getOrder None "ORD-TEST-0001"
       (snd (placeOrder no_validation (guest "o1")
               (cart [Item.mk "p2" 1 None None]) shop))
     = OrderDenied 403 "Forbidden" "Access denied".
Proof.
  split.
  - destruct (placeOrder no_validation (signed_in ann "o1")
                (cart [Item.mk "p2" 1 None None]) shop) as [r st'] eqn:Hcall.
    assert (exists o, r = Success 201 "Order created successfully" "o1" (Some o))
      as [o ->].
    { vm_compute in Hcall. injection Hcall as <- _. eexists. reflexivity. }
    exists o, st'. split; [reflexivity|].
    apply (proj2 order_is_shown_to_owner_or_admin no_validation (signed_in ann "o1")
             _ shop _ _ _ _ _ Hcall).
    intros id o2 H. change (orders shop) with (∅ : gmap string Order.t) in H.
    by rewrite lookup_empty in H.
  - destruct (placeOrder no_validation (guest "o1")
                (cart [Item.mk "p2" 1 None None]) shop) as [r st'] eqn:Hcall.
    assert (exists o, r = Success 201 "Order created successfully" "o1" (Some o))
      as [o ->].
    { vm_compute in Hcall. injection Hcall as <- _. eexists. reflexivity. }
    apply (proj2 order_is_shown_to_owner_or_admin no_validation (guest "o1")
             _ shop _ _ _ _ _ Hcall).
    intros id o2 H. change (orders shop) with (∅ : gmap string Order.t) in H.
    by rewrite lookup_empty in H.
Defined.

(** * Products that cannot be ordered *)


